(** * autobuild: archive detection, archive opening and tar-name splitting

    A shallow embedding of [autobuild/archive_utils.py] and of
    [split_tarname] from [autobuild/common.py], with the properties the
    specification states about them, followed by further properties of
    these and of [get_current_platform], [get_autobuild_environment],
    [establish_build_id], [find_executable], [search_up_for_file],
    [compute_md5] and [Serialized] of [common.py].

    Layout: the Python primitives the two modules call ([Py]), the
    exception-and-world monad the I/O code runs in ([Run]), the embedding of
    [archive_utils.py] and of [common.py], then the lemmas.

    Strings are [string], bytes are [list byte], [os.path] is [posixpath].
    The libraries the code calls ([pyzstd], [tarfile], [zipfile]) are a
    record of answers, [library], over which every statement quantifies. *)

From Stdlib Require Import ZArith Ascii Strings.Byte.
From stdpp Require Import base list strings pretty gmap.

Local Open Scope Z_scope.

(* ================================================================== *)
(** ** Exceptions and results *)

(** The exceptions that can leave the modelled functions.  [OSError] is what
    the builtin [open] raises for a missing or unreadable file, [IndexError]
    what list indexing raises out of range, [AutobuildError] is the class of
    [common.py]; [LibraryError] stands for whatever [tarfile], [zipfile] or
    [pyzstd] raise. *)
Inductive exn : Type :=
| OSError (filename : string)
| IndexError
| AutobuildError (msg : string)
| LibraryError (origin : string).

Inductive result (A : Type) : Type :=
| Ok (a : A)
| Raise (e : exn).
Arguments Ok {A} a.
Arguments Raise {A} e.

(* ================================================================== *)
(** ** Python primitives *)

Module Py.

(** [s[i:]] and [s[:i]] for [0 <= i <= len(s)]. *)
Definition str_from (i : nat) (s : string) : string :=
  String.substring i (String.length s - i) s.
Definition str_upto (i : nat) (s : string) : string :=
  String.substring 0 i s.

(** [s.endswith(suffix)]. *)
Definition endswith (s suffix : string) : bool :=
  let n := String.length s in
  let m := String.length suffix in
  (m <=? n)%nat && String.eqb (str_from (n - m) s) suffix.

(** [s.split(sep)] for a one-character separator: never the empty list;
    a string without the separator gives the one-element list [[s]]. *)
Fixpoint split (sep : ascii) (s : string) : list string :=
  match s with
  | EmptyString => [EmptyString]
  | String c rest =>
      if Ascii.eqb c sep then EmptyString :: split sep rest
      else match split sep rest with
           | [] => [String c EmptyString]
           | w :: ws => String c w :: ws
           end
  end.

(** [sep.join(parts)]. *)
Definition join (sep : string) (parts : list string) : string :=
  String.concat sep parts.

(** [s.rfind(c)]: the highest index of [c], or [-1]. *)
Fixpoint rfind_from (c : ascii) (s : string) (i : Z) (found : Z) : Z :=
  match s with
  | EmptyString => found
  | String a rest =>
      rfind_from c rest (i + 1) (if Ascii.eqb a c then i else found)
  end.
Definition rfind (c : ascii) (s : string) : Z := rfind_from c s 0 (-1).

(** [s.rstrip(c)]: drop every trailing [c]. *)
Fixpoint rstrip (c : ascii) (s : string) : string :=
  match s with
  | EmptyString => EmptyString
  | String a rest =>
      match rstrip c rest with
      | EmptyString => if Ascii.eqb a c then EmptyString
                       else String a EmptyString
      | r => String a r
      end
  end.

(** [c * n] for a one-character string. *)
Fixpoint repeat_char (c : ascii) (n : nat) : string :=
  match n with
  | O => EmptyString
  | S k => String c (repeat_char c k)
  end.

(** [needle in s]. *)
Definition contains (needle s : string) : bool :=
  match String.index 0 needle s with
  | Some _ => true
  | None => false
  end.

(** Truth value of a [str]: the empty string is false. *)
Definition str_truthy (s : string) : bool := negb (String.eqb s "").

(** Index normalisation of [l[i]]: a negative index counts from the end;
    out of range is [IndexError]. *)
Definition item_index (n : nat) (i : Z) : option nat :=
  let j := if i <? 0 then i + Z.of_nat n else i in
  if (0 <=? j) && (j <? Z.of_nat n) then Some (Z.to_nat j) else None.

Definition getitem {A} (l : list A) (i : Z) : result A :=
  match item_index (length l) i with
  | Some j => match l !! j with
              | Some x => Ok x
              | None => Raise IndexError
              end
  | None => Raise IndexError
  end.

(** [l[i] = x], as the updated list. *)
Definition setitem {A} (l : list A) (i : Z) (x : A) : result (list A) :=
  match item_index (length l) i with
  | Some j => Ok (<[j := x]> l)
  | None => Raise IndexError
  end.

(** Index normalisation of a slice bound: negative counts from the end,
    then the bound is clamped into [0, len]. *)
Definition slice_bound (n : nat) (i : Z) : nat :=
  let j := if i <? 0 then i + Z.of_nat n else i in
  Z.to_nat (Z.min (Z.max j 0) (Z.of_nat n)).

(** [l[i:j]]. *)
Definition getslice {A} (l : list A) (i j : Z) : list A :=
  let a := slice_bound (length l) i in
  let b := slice_bound (length l) j in
  take (b - a) (drop a l).

(** [l[i:j] = v], as the updated list; an empty or inverted range inserts
    at the start bound. *)
Definition setslice {A} (l : list A) (i j : Z) (v : list A) : list A :=
  let a := slice_bound (length l) i in
  let b := Nat.max a (slice_bound (length l) j) in
  take a l ++ v ++ drop b l.

(** [head.startswith(magic)] on [bytes]. *)
Fixpoint startswith (head magic : list byte) : bool :=
  match magic with
  | [] => true
  | m :: ms =>
      match head with
      | [] => false
      | h :: hs => Byte.eqb h m && startswith hs ms
      end
  end.

(** [posixpath.split(p)]: everything after the last slash is the tail;
    the head loses its trailing slashes unless it consists of slashes. *)
Definition os_path_split (p : string) : string * string :=
  let i := Z.to_nat (rfind "/" p + 1) in
  let head := str_upto i p in
  let tail := str_from i p in
  let head :=
    if str_truthy head
       && negb (String.eqb head (repeat_char "/" (String.length head)))
    then rstrip "/" head
    else head in
  (head, tail).

End Py.

(* ================================================================== *)
(** ** The world the I/O code runs in *)

(** What [ZstdTarFile.__init__] passes to [ZstdFile] as [level_or_option]:
    [None] when reading, otherwise the compression level, the number of
    workers and the checksum flag. *)
Record zstd_option : Type :=
  { compressionLevel : Z; nbWorkers : nat; checksumFlag : Z }.

(** A resource that is open and has to be closed. *)
Inductive resource : Type :=
| RFile (filename : string)      (* a file object of the builtin [open] *)
| RZstd (name : string)          (* a [pyzstd.ZstdFile] *)
| RTar (name : string).          (* the [tarfile.TarFile] part of an object *)

Global Instance resource_eq_dec : EqDecision resource.
Proof. solve_decision. Defined.

(** The calls that reach the file system or a library, in the order made. *)
Inductive event : Type :=
| EvOpen (filename : string)
| EvRead (filename : string) (size : nat)
| EvCloseFile (filename : string)
| EvZstdFile (name mode : string) (option : option zstd_option)
| EvZstdClose (name : string)
| EvTarInit (name mode : string)
| EvTarClose (name : string)
| EvZipFile (filename mode : string)
| EvTarfileOpen (filename mode : string).

(** How the libraries answer.  [None] is a normal return, [Some e] raises
    [e].  Nothing is assumed about them: every theorem quantifies over the
    whole record. *)
Record library : Type :=
  { cpu_count : nat;
    ZstdFile_new : string -> string -> option exn;
    ZstdFile_close : string -> option exn;
    TarFile_init : string -> string -> option exn;
    TarFile_close : string -> option exn;
    ZipFile_new : string -> string -> option exn;
    tarfile_open_result : string -> string -> option exn }.

(** [files] maps the paths that can be opened for reading to their content;
    a path outside the map is missing or unreadable.  [opened] are the
    resources currently open, [log] the calls made so far, oldest first. *)
Record world : Type :=
  { files : gmap string (list byte);
    opened : list resource;
    log : list event }.

Module Run.

(** A computation reads and updates the world and returns or raises; the
    world survives a raise. *)
Definition M (A : Type) : Type := world -> result A * world.

Definition ret {A} (a : A) : M A := fun w => (Ok a, w).
Definition raise {A} (e : exn) : M A := fun w => (Raise e, w).
Definition bind {A B} (m : M A) (k : A -> M B) : M B :=
  fun w => match m w with
           | (Ok a, w') => k a w'
           | (Raise e, w') => (Raise e, w')
           end.

Definition emit (ev : event) : M unit :=
  fun w => (Ok tt, {| files := files w; opened := opened w;
                      log := log w ++ [ev] |}).
Definition acquire (r : resource) : M unit :=
  fun w => (Ok tt, {| files := files w; opened := r :: opened w;
                      log := log w |}).
(** Releasing drops one occurrence of the resource. *)
Fixpoint remove_one (r : resource) (l : list resource) : list resource :=
  match l with
  | [] => []
  | x :: rest => if decide (x = r) then rest else x :: remove_one r rest
  end.
Definition release (r : resource) : M unit :=
  fun w => (Ok tt, {| files := files w; opened := remove_one r (opened w);
                      log := log w |}).

(** A library call: returns, or raises what the library says. *)
Definition answer (o : option exn) : M unit :=
  match o with
  | None => ret tt
  | Some e => raise e
  end.

(** [try: body  except: handler; raise] -- the handler runs on any
    exception and the exception is raised again; an exception of the
    handler itself replaces it. *)
Definition try_except_reraise {A} (body : M A) (handler : M unit) : M A :=
  fun w => match body w with
           | (Ok a, w') => (Ok a, w')
           | (Raise e, w') =>
               match handler w' with
               | (Ok _, w'') => (Raise e, w'')
               | (Raise e', w'') => (Raise e', w'')
               end
           end.

(** [try: body  finally: cleanup] -- the cleanup always runs; then the
    outcome of the body stands, unless the cleanup raises. *)
Definition try_finally {A} (body : M A) (cleanup : M unit) : M A :=
  fun w => match body w with
           | (r, w') =>
               match cleanup w' with
               | (Ok _, w'') => (r, w'')
               | (Raise e', w'') => (Raise e', w'')
               end
           end.

End Run.

Notation "x <- m ;; k" := (Run.bind m (fun x => k))
  (at level 100, m at next level, right associativity, only parsing).
Notation "m ;;; k" := (Run.bind m (fun _ => k))
  (at level 100, right associativity, only parsing).

(** A file object of [open(filename, "rb")]: its name and its content. *)
Record file_object : Type := { f_name : string; f_data : list byte }.

(** [open(filename, "rb")]: the attempt is logged; a path that is not in
    [files] raises [OSError]. *)
Definition builtin_open_rb (filename : string) : Run.M file_object :=
  Run.emit (EvOpen filename) ;;;
  fun w => match files w !! filename with
           | Some data =>
               (Run.acquire (RFile filename) ;;;
                Run.ret {| f_name := filename; f_data := data |}) w
           | None => (Raise (OSError filename), w)
           end.

(** [f.read(size)] on a freshly opened file: at most [size] leading bytes. *)
Definition file_read (f : file_object) (size : nat) : Run.M (list byte) :=
  Run.emit (EvRead (f_name f) size) ;;;
  Run.ret (take size (f_data f)).

Definition file_close (f : file_object) : Run.M unit :=
  Run.emit (EvCloseFile (f_name f)) ;;;
  Run.release (RFile (f_name f)).

(** [with open(filename, "rb") as f: body] -- the file is closed when the
    body is left, by [return] or by an exception. *)
Definition with_open_rb {A} (filename : string)
    (body : file_object -> Run.M A) : Run.M A :=
  f <- builtin_open_rb filename ;;
  Run.try_finally (body f) (file_close f).

(* ================================================================== *)
(** ** [autobuild/archive_utils.py] *)

(** [class ArchiveType]: four string constants. *)
Module ArchiveType.
Definition GZ : string := "gz".
Definition BZ2 : string := "bz2".
Definition ZIP : string := "zip".
Definition ZST : string := "zst".
End ArchiveType.

(** The value of [f_type]: [None] or one of the strings above. *)
Definition truthy (v : option string) : bool :=
  match v with
  | Some s => Py.str_truthy s
  | None => false
  end.

(** [v == s] for a value that is [None] or a string. *)
Definition py_eq (v : option string) (s : string) : bool :=
  match v with
  | Some t => String.eqb t s
  | None => false
  end.

(** The dict of signatures, in insertion order (the order [items()] walks). *)
Definition _ARCHIVE_MAGIC_NUMBERS : list (list byte * string) :=
  [ ([x1f; x8b; x08], ArchiveType.GZ);
    ([x42; x5a; x68], ArchiveType.BZ2);
    ([x50; x4b; x03; x04], ArchiveType.ZIP);
    ([x28; xb5; x2f; xfd], ArchiveType.ZST) ].

(** [max(len(x) for x in _ARCHIVE_MAGIC_NUMBERS)]. *)
Definition _ARCHIVE_MAGIC_NUMBERS_MAX : nat :=
  foldr Nat.max 0%nat ((fun entry => length (fst entry)) <$> _ARCHIVE_MAGIC_NUMBERS).

(** The [for magic, f_type in ....items()] loop: the first entry whose
    magic is a prefix of [head] decides; falling out of the loop is [None]. *)
Fixpoint match_signature (head : list byte)
    (items : list (list byte * string)) : option string :=
  match items with
  | [] => None
  | (magic, f_type) :: rest =>
      if Py.startswith head magic then Some f_type
      else match_signature head rest
  end.

Definition _archive_type_from_signature (filename : string)
  : Run.M (option string) :=
  with_open_rb filename (fun f =>
    head <- file_read f _ARCHIVE_MAGIC_NUMBERS_MAX ;;
    Run.ret (match_signature head _ARCHIVE_MAGIC_NUMBERS)).

Definition _archive_type_from_extension (filename : string) : option string :=
  if Py.endswith filename ".tar.gz" then Some ArchiveType.GZ
  else if Py.endswith filename ".tar.bz2" then Some ArchiveType.BZ2
  else if Py.endswith filename ".tar.zst" then Some ArchiveType.ZST
  else if Py.endswith filename ".zip" then Some ArchiveType.ZIP
  else None.

Definition detect_archive_type (filename : string) : Run.M (option string) :=
  let f_type := _archive_type_from_extension filename in
  if truthy f_type then Run.ret f_type
  else _archive_type_from_signature filename.

(** [pyzstd.ZstdFile(name, mode, level_or_option=...)]: the stream is open
    once the call returns. *)
Definition ZstdFile (L : library) (name mode : string)
    (level_or_option : option zstd_option) : Run.M unit :=
  Run.emit (EvZstdFile name mode level_or_option) ;;;
  Run.answer (ZstdFile_new L name mode) ;;;
  Run.acquire (RZstd name).

(** [zstd_file.close()]: the stream counts as closed once the call
    returns. *)
Definition zstd_file_close (L : library) (name : string) : Run.M unit :=
  Run.emit (EvZstdClose name) ;;;
  Run.answer (ZstdFile_close L name) ;;;
  Run.release (RZstd name).

(** [tarfile.TarFile.__init__(self, fileobj=..., mode=mode)]. *)
Definition super_init (L : library) (name mode : string) : Run.M unit :=
  Run.emit (EvTarInit name mode) ;;;
  Run.answer (TarFile_init L name mode) ;;;
  Run.acquire (RTar name).

(** [tarfile.TarFile.close(self)]. *)
Definition super_close (L : library) (name : string) : Run.M unit :=
  Run.emit (EvTarClose name) ;;;
  Run.answer (TarFile_close L name) ;;;
  Run.release (RTar name).

(** An instance of [class ZstdTarFile]: [zstd_file] is the stream it owns,
    named by the path it was opened on. *)
Record ZstdTarFile : Type := { zstd_file : string; tar_mode : string }.

(** Lines 69-74: the options are set unless the mode is exactly ['r'] or
    ['rb']. *)
Definition zstdoption (L : library) (mode : string) (level : Z)
  : option zstd_option :=
  if negb (String.eqb mode "r") && negb (String.eqb mode "rb")
  then Some {| compressionLevel := level;
               nbWorkers := cpu_count L;
               checksumFlag := 1 |}
  else None.

(** [ZstdTarFile.__init__(self, name, mode, level=level)].  The arguments
    [zstd_dict] and [**kwargs] are handed on unchanged and play no part
    here. *)
Definition ZstdTarFile_init (L : library) (name mode : string) (level : Z)
  : Run.M ZstdTarFile :=
  ZstdFile L name mode (zstdoption L mode level) ;;;
  Run.try_except_reraise
    (super_init L name mode ;;;
     Run.ret {| zstd_file := name; tar_mode := mode |})
    (zstd_file_close L name).

(** [ZstdTarFile.close(self)]. *)
Definition ZstdTarFile_close (L : library) (self : ZstdTarFile)
  : Run.M unit :=
  Run.try_finally (super_close L (zstd_file self))
                  (zstd_file_close L (zstd_file self)).

(** What [open_archive] hands back. *)
Inductive archive : Type :=
| ArZstdTar (z : ZstdTarFile)
| ArZip (filename mode : string)
| ArTar (filename mode : string).

Definition zipfile_ZipFile (L : library) (filename mode : string)
  : Run.M archive :=
  Run.emit (EvZipFile filename mode) ;;;
  Run.answer (ZipFile_new L filename mode) ;;;
  Run.ret (ArZip filename mode).

Definition tarfile_open (L : library) (filename mode : string)
  : Run.M archive :=
  Run.emit (EvTarfileOpen filename mode) ;;;
  Run.answer (tarfile_open_result L filename mode) ;;;
  Run.ret (ArTar filename mode).

Definition open_archive (L : library) (filename : string) : Run.M archive :=
  f_type <- detect_archive_type filename ;;
  if py_eq f_type ArchiveType.ZST then
    z <- ZstdTarFile_init L filename "r" 4 ;;
    Run.ret (ArZstdTar z)
  else if py_eq f_type ArchiveType.ZIP then
    zipfile_ZipFile L filename "r"
  else
    tarfile_open L filename "r".

(* ================================================================== *)
(** ** [autobuild/common.py]: [split_tarname] *)

(** Sequencing of the list operations that can raise. *)
Definition and_then {A B} (r : result A) (k : A -> result B) : result B :=
  match r with
  | Ok a => k a
  | Raise e => Raise e
  end.

(** Lines 235-244: the extension is taken off the last dash-token.  Returns
    the updated [fileparts] and [ext]. *)
Definition lop_extension (fileparts : list string)
  : result (list string * string) :=
  and_then (Py.getitem fileparts (-1)) (fun last_part =>
  let extparts := Py.split "." last_part in
  and_then (Py.getitem extparts 0) (fun first_ext =>
  and_then (Py.setitem fileparts (-1) first_ext) (fun fileparts =>
  and_then (Py.setitem extparts 0 EmptyString) (fun extparts =>
  let ext := Py.join "." extparts in
  Ok (fileparts, ext))))).

(** Lines 249-250: too many parts are recombined. *)
Definition recombine (fileparts : list string) : list string :=
  if (4 <? length fileparts)%nat
  then Py.setslice fileparts 1 (-2)
         [Py.join "-" (Py.getslice fileparts 1 (-2))]
  else fileparts.

Definition incompatible_archive_name (filename : string) : string :=
  "Incompatible archive name '" +:+ filename +:+ "' lacks some components".

Definition split_tarname (pathname : string)
  : result (string * list string * string) :=
  let '(dir, filename) := Py.os_path_split pathname in
  let fileparts := Py.split "-" filename in
  and_then (lop_extension fileparts) (fun '(fileparts, ext) =>
  let fileparts := recombine fileparts in
  if (length fileparts <? 4)%nat
  then Raise (AutobuildError (incompatible_archive_name filename))
  else Ok (dir, fileparts, ext)).

(** The dash-tokens of a path after the extension has been moved off the
    last one, before any recombination: the list the length tests of
    [split_tarname] look at. *)
Definition tarname_tokens (pathname : string)
  : result (list string * string) :=
  lop_extension (Py.split "-" (snd (Py.os_path_split pathname))).

(* ================================================================== *)
(** ** [autobuild/common.py]: platform, environment, build id *)

Definition PLATFORM_DARWIN : string := "darwin".
Definition PLATFORM_WINDOWS : string := "windows".
Definition PLATFORM_LINUX : string := "linux".
Definition PLATFORM_SOLARIS : string := "solaris".
Definition PLATFORM_UNKNOWN : string := "unknown".

Definition PLATFORMS : list string :=
  [PLATFORM_DARWIN; PLATFORM_WINDOWS; PLATFORM_LINUX; PLATFORM_SOLARIS].

(** [d.get(key, default)]. *)
Definition dict_get {V} (d : gmap string V) (key : string) (dflt : V) : V :=
  match d !! key with
  | Some v => v
  | None => dflt
  end.

(** The dict [platform_map] of [get_current_platform]. *)
Definition platform_map : gmap string string :=
  <["darwin" := PLATFORM_DARWIN]>
  (<["linux2" := PLATFORM_LINUX]>
  (<["win32" := PLATFORM_WINDOWS]>
  (<["cygwin" := PLATFORM_WINDOWS]>
  (<["solaris" := PLATFORM_SOLARIS]> ∅)))).

(** [get_current_platform()], from [os.environ] and [sys.platform]. *)
Definition get_current_platform (environ : gmap string string)
    (sys_platform : string) : string :=
  dict_get environ "AUTOBUILD_PLATFORM_OVERRIDE"
    (dict_get platform_map sys_platform PLATFORM_UNKNOWN).

(** [get_autobuild_executable_path()]; [resolve] is
    [os.path.realpath(os.path.abspath(.))] and [argv0] is [sys.argv[0]]. *)
Definition get_autobuild_executable_path (resolve : string -> string)
    (environ : gmap string string) (sys_platform argv0 : string) : string :=
  let path :=
    if String.eqb (get_current_platform environ sys_platform) PLATFORM_WINDOWS
    then argv0 +:+ ".cmd"
    else argv0 in
  resolve path.

(** [get_autobuild_environment()]: a copy of [os.environ] with [AUTOBUILD]
    set. *)
Definition get_autobuild_environment (resolve : string -> string)
    (environ : gmap string string) (sys_platform argv0 : string)
  : gmap string string :=
  <["AUTOBUILD" :=
      dict_get environ "AUTOBUILD"
        (get_autobuild_executable_path resolve environ sys_platform argv0)]>
  environ.

(** The text [establish_build_id] hands to [logger.warn]. *)
Definition build_id_warning (build_id : string) : string :=
  "Warning: no --id argument or AUTOBUILD_BUILD_ID environment variable specified"
  +:+ String "010" "Using the date (" +:+ build_id
  +:+ "), which may not be unique".

(** [establish_build_id(build_id_arg)]; [today] is
    [time.strftime("%Y%m%d")].  Returns the id, the updated [os.environ] and
    the warnings logged. *)
Definition establish_build_id (today : string) (build_id_arg : option string)
    (environ : gmap string string)
  : string * gmap string string * list string :=
  let '(build_id, warnings) :=
    match (if truthy build_id_arg then build_id_arg else None) with
    | Some arg => (arg, [])
    | None =>
        match environ !! "AUTOBUILD_BUILD_ID" with
        | Some v => (v, [])
        | None => (today, [build_id_warning today])
        end
    end in
  (build_id, <["AUTOBUILD_BUILD_ID" := build_id]> environ, warnings).

(* ================================================================== *)
(** ** [autobuild/common.py]: [find_executable] *)

(** [posixpath.join(a, b)]. *)
Definition os_path_join (a b : string) : string :=
  if String.prefix "/" b then b
  else if String.eqb a "" || Py.endswith a "/" then a +:+ b
  else a +:+ "/" +:+ b.

(** A loop that returns from the function at the first element for which
    the body returns, and falls through otherwise. *)
Fixpoint first_some {A B} (body : A -> option B) (l : list A) : option B :=
  match l with
  | [] => None
  | x :: rest =>
      match body x with
      | Some y => Some y
      | None => first_some body rest
      end
  end.

(** [os.environ.get('PATH', "").split(os.pathsep)]. *)
Definition path_dirs (environ : gmap string string) : list string :=
  Py.split ":" (dict_get environ "PATH" "").

(** The extensions tried for each name, the empty one last:
    [itertools.chain(exts, [""])] after the default for [exts=None]. *)
Definition tried_exts (sys_platform : string) (exts : option (list string))
  : list string :=
  let exts :=
    match exts with
    | None => if String.prefix "win" sys_platform
              then [".com"; ".exe"; ".bat"; ".cmd"]
              else []
    | Some l => l
    end in
  exts ++ [""].

(** [find_executable(executables, exts)]; [executables] is one name or a
    list of names, [glob] is [glob.glob]. *)
Definition find_executable (glob : string -> list string)
    (environ : gmap string string) (sys_platform : string)
    (executables : string + list string) (exts : option (list string))
  : option string :=
  let executables :=
    match executables with
    | inl e => [e]
    | inr l => l
    end in
  first_some (fun e =>
    first_some (fun p =>
      first_some (fun ext => head (glob (os_path_join p (e +:+ ext))))
                 (tried_exts sys_platform exts))
               (path_dirs environ))
             executables.

(* ================================================================== *)
(** ** [autobuild/common.py]: [search_up_for_file] *)

Definition os_path_dirname (p : string) : string := fst (Py.os_path_split p).
Definition os_path_basename (p : string) : string := snd (Py.os_path_split p).

(** The [while] loop of [search_up_for_file], with a bound on the number of
    rounds: [None] when the bound is used up, otherwise [Some None] for
    [return None] and [Some (Some dir)] for leaving the loop with [dir]. *)
Fixpoint search_up_loop (path_exists : string -> bool) (rounds : nat)
    (dir filename : string) : option (option string) :=
  match rounds with
  | O => None
  | S rounds =>
      if path_exists (os_path_join dir filename) then Some (Some dir)
      else
        let newdir := os_path_dirname dir in
        if String.eqb newdir dir then Some None
        else search_up_loop path_exists rounds newdir filename
  end.

(** [search_up_for_file(path)]; [abspath] is [os.path.abspath] and
    [path_exists] is [os.path.exists].  The loop is given one round more
    than the directory has characters. *)
Definition search_up_for_file (abspath : string -> string)
    (path_exists : string -> bool) (path : string)
  : option (option string) :=
  let path := abspath path in
  let filename := os_path_basename path in
  let dir := os_path_dirname path in
  match search_up_loop path_exists (S (String.length dir)) dir filename with
  | None => None
  | Some None => Some None
  | Some (Some dir) => Some (Some (abspath (os_path_join dir filename)))
  end.

(* ================================================================== *)
(** ** [autobuild/common.py]: [compute_md5] and [class Serialized] *)

(** [stream.read()]: everything up to the end of the file; logged with the
    number of bytes read. *)
Definition file_read_all (f : file_object) : Run.M (list byte) :=
  Run.emit (EvRead (f_name f) (length (f_data f))) ;;;
  Run.ret (f_data f).

(** [compute_md5(path)]; [md5] and [hexdigest] are those of [hashlib], and
    [str_of_error] is the text of an exception under ["%s"]. *)
Definition compute_md5 {H : Type} (md5 : list byte -> H)
    (hexdigest : H -> string) (str_of_error : exn -> string) (path : string)
  : Run.M string :=
  fun w =>
    match builtin_open_rb path w with
    | (Raise (OSError f), w') =>
        (Raise (AutobuildError
                  ("Can't compute MD5 for " +:+ path +:+ ": "
                   +:+ str_of_error (OSError f))), w')
    | (Raise e, w') => (Raise e, w')
    | (Ok stream, w') =>
        (hasher <- Run.try_finally
                     (data <- file_read_all stream ;; Run.ret (md5 data))
                     (file_close stream) ;;
         Run.ret (hexdigest hasher)) w'
    end.

(** An instance of [Serialized] or of a class derived from it:
    [class_names] are the names bound in the class of the instance
    ([self.__class__.__dict__]), [dict_items] the content of the inherited dict, [instance_dict]
    is [self.__dict__]. *)
Record Serialized (V : Type) : Type :=
  { class_names : gset string;
    dict_items : gmap string V;
    instance_dict : gmap string V }.
Arguments class_names {V} _.
Arguments dict_items {V} _.
Arguments instance_dict {V} _.

(** What reading an attribute gives: a value, or [AttributeError] with its
    message. *)
Inductive attribute (V : Type) : Type :=
| Attr (v : V)
| AttributeError (msg : string).
Arguments Attr {V} v.
Arguments AttributeError {V} msg.

(** [Serialized.__getattr__(self, name)]: the method itself.  Python calls
    it only after the normal lookup of [name] has failed. *)
Definition Serialized__getattr__ {V} (self : Serialized V) (name : string)
  : attribute V :=
  match dict_items self !! name with
  | Some v => Attr v
  | None => AttributeError ("object has no attribute '" +:+ name +:+ "'")
  end.

(** Reading [self.name].  [normal_lookup] is [object.__getattribute__]: the
    search of the instance [__dict__] and of the class hierarchy, [None]
    when it finds nothing.  What it finds is the result; [__getattr__] is
    called only when it finds nothing. *)
Definition attribute_read {V}
    (normal_lookup : Serialized V -> string -> option V)
    (self : Serialized V) (name : string) : attribute V :=
  match normal_lookup self name with
  | Some v => Attr v
  | None => Serialized__getattr__ self name
  end.

(** [Serialized.__setattr__(self, name, value)], which every assignment
    [self.name = value] calls, as the updated instance. *)
Definition Serialized__setattr__ {V} (self : Serialized V) (name : string)
    (value : V) : Serialized V :=
  if decide (name ∈ class_names self)
  then {| class_names := class_names self;
          dict_items := dict_items self;
          instance_dict := <[name := value]> (instance_dict self) |}
  else {| class_names := class_names self;
          dict_items := <[name := value]> (dict_items self);
          instance_dict := instance_dict self |}.

(** [Serialized.copy(self)]: [self.__class__(self)], a new instance of the
    same class filled from the items. *)
Definition Serialized_copy {V} (self : Serialized V) : Serialized V :=
  {| class_names := class_names self;
     dict_items := dict_items self;
     instance_dict := ∅ |}.

(* ================================================================== *)
(** ** Vocabulary of the statements *)

(** The name ends in none of the four suffixes that
    [_archive_type_from_extension] tests. *)
Definition no_recognized_suffix (filename : string) : Prop :=
  Py.endswith filename ".tar.gz" = false
  /\ Py.endswith filename ".tar.bz2" = false
  /\ Py.endswith filename ".tar.zst" = false
  /\ Py.endswith filename ".zip" = false.

(** The world after further calls were logged and with the given resources
    open. *)
Definition after (w : world) (res : list resource) (evs : list event)
  : world :=
  {| files := files w; opened := res; log := log w ++ evs |}.

(** A world for the worked examples: a gzip stream under a name without a
    known suffix, an empty file, and a zip container renamed to
    [.tar.gz]. *)
Definition example_world : world :=
  {| files := {[ "pkg.bin" := [x1f; x8b; x08; x00; x00];
                 "empty.bin" := [];
                 "renamed.tar.gz" := [x50; x4b; x03; x04; x14] ]};
     opened := [];
     log := [] |}.

(** A library for the worked examples in which the tar layer fails, at
    construction and at close, and everything else succeeds. *)
Definition tar_failing_library : library :=
  {| cpu_count := 8;
     ZstdFile_new := fun _ _ => None;
     ZstdFile_close := fun _ => None;
     TarFile_init := fun _ _ => Some (LibraryError "tarfile.ReadError");
     TarFile_close := fun _ => Some (LibraryError "tarfile.close");
     ZipFile_new := fun _ _ => None;
     tarfile_open_result := fun _ _ => None |}.

(** The extension starts with a dot. *)
Definition starts_with_dot (ext : string) : Prop :=
  exists rest, ext = String "." rest.

(** An error message names a count when the decimal numeral of the count
    occurs in it. *)
Definition names_count (msg : string) (count : nat) : Prop :=
  Py.contains (pretty count) msg = true.

(** A second world for the worked examples: one file that shares its first
    four bytes with "pkg.bin" of [example_world] and differs after them. *)
Definition example_world2 : world :=
  {| files := {[ "other.bin" := [x1f; x8b; x08; x00; xff; xff] ]};
     opened := [];
     log := [] |}.

(** A library for the worked examples in which every call succeeds. *)
Definition working_library : library :=
  {| cpu_count := 8;
     ZstdFile_new := fun _ _ => None;
     ZstdFile_close := fun _ => None;
     TarFile_init := fun _ _ => None;
     TarFile_close := fun _ => None;
     ZipFile_new := fun _ _ => None;
     tarfile_open_result := fun _ _ => None |}.

(** A [glob.glob] for the worked examples: [scp] is installed in /usr/bin
    and [pscp] in /opt/bin. *)
Definition example_glob (pattern : string) : list string :=
  if String.eqb pattern "/usr/bin/scp" then ["/usr/bin/scp"]
  else if String.eqb pattern "/opt/bin/pscp" then ["/opt/bin/pscp"]
  else [].

Definition example_environ : gmap string string :=
  {[ "PATH" := "/usr/bin:/opt/bin" ]}.

(** A library for the worked examples in which both close calls fail: the
    tar-level close and the close of the zstd stream. *)
Definition closes_failing_library : library :=
  {| cpu_count := 8;
     ZstdFile_new := fun _ _ => None;
     ZstdFile_close := fun _ => Some (LibraryError "zstd.close");
     TarFile_init := fun _ _ => None;
     TarFile_close := fun _ => Some (LibraryError "tarfile.close");
     ZipFile_new := fun _ _ => None;
     tarfile_open_result := fun _ _ => None |}.

(* ================================================================== *)
(** * Properties *)

Example split_dash :
  Py.split "-" "boost-1.39.0-darwin-20100222a.tar.bz2"
  = ["boost"; "1.39.0"; "darwin"; "20100222a.tar.bz2"].
Proof. reflexivity. Qed.

Example split_none : Py.split "-" "" = [""].
Proof. reflexivity. Qed.

Example os_path_split_ex :
  Py.os_path_split "/some/path/boost.tar" = ("/some/path", "boost.tar")
  /\ Py.os_path_split "/boost.tar" = ("/", "boost.tar")
  /\ Py.os_path_split "boost.tar" = ("", "boost.tar")
  /\ Py.os_path_split "a//b" = ("a", "b").
Proof. repeat split; reflexivity. Qed.

Example slices_ex :
  Py.getslice [1; 2; 3; 4; 5; 6] 1 (-2) = [2; 3; 4]
  /\ Py.setslice [1; 2; 3; 4; 5; 6] 1 (-2) [9] = [1; 9; 5; 6]
  /\ Py.getitem [1; 2; 3] (-1) = Ok 3
  /\ Py.setitem [1; 2; 3] (-1) 7 = Ok [1; 2; 7]
  /\ Py.getitem (@nil Z) (-1) = Raise IndexError.
Proof. repeat split; reflexivity. Qed.

(* ------------------------------------------------------------------ *)
(** ** Strings: slices and [endswith] *)

Section string_facts.
Implicit Types s a b suffix : string.

Lemma string_app_cons c a b : String c a +:+ b = String c (a +:+ b).
Proof. reflexivity. Qed.

Lemma string_length_app a b :
  String.length (a +:+ b) = (String.length a + String.length b)%nat.
Proof. induction a as [|c a IH]; simpl; [done | by rewrite IH]. Qed.

Lemma substring_all s : String.substring 0 (String.length s) s = s.
Proof. induction s as [|c s IH]; simpl; [done | by rewrite IH]. Qed.

Lemma substring_skip_app a b k :
  String.substring (String.length a) k (a +:+ b) = String.substring 0 k b.
Proof. induction a as [|c a IH]; simpl; [done | apply IH]. Qed.

Lemma str_from_app a b : Py.str_from (String.length a) (a +:+ b) = b.
Proof.
  unfold Py.str_from. rewrite substring_skip_app, string_length_app.
  replace (String.length a + String.length b - String.length a)%nat
    with (String.length b) by lia.
  apply substring_all.
Qed.

Lemma str_upto_from s i :
  (i <= String.length s)%nat -> Py.str_upto i s +:+ Py.str_from i s = s.
Proof.
  unfold Py.str_upto, Py.str_from. revert i.
  induction s as [|c s IH]; intros [|i] Hi; simpl in *; try done.
  - by rewrite substring_all.
  - rewrite string_app_cons. f_equal. apply IH. lia.
Qed.

Lemma endswith_app a suffix : Py.endswith (a +:+ suffix) suffix = true.
Proof.
  unfold Py.endswith. rewrite string_length_app.
  replace (String.length a + String.length suffix - String.length suffix)%nat
    with (String.length a) by lia.
  rewrite str_from_app, String.eqb_refl, andb_true_r.
  apply Nat.leb_le. lia.
Qed.

Lemma endswith_inv s suffix :
  Py.endswith s suffix = true -> exists a, s = a +:+ suffix.
Proof.
  unfold Py.endswith. intros [Hle Heq]%andb_true_iff.
  apply Nat.leb_le in Hle. apply String.eqb_eq in Heq.
  exists (Py.str_upto (String.length s - String.length suffix) s).
  pose proof (str_upto_from s (String.length s - String.length suffix)) as H.
  rewrite Heq in H. symmetry. apply H. lia.
Qed.

Lemma endswith_iff s suffix :
  Py.endswith s suffix = true <-> exists a, s = a +:+ suffix.
Proof.
  split; [apply endswith_inv | intros [a ->]; apply endswith_app].
Qed.

Lemma list_ascii_app a b :
  String.list_ascii_of_string (a +:+ b)
  = String.list_ascii_of_string a ++ String.list_ascii_of_string b.
Proof. induction a as [|c a IH]; simpl; [done | by rewrite IH]. Qed.

(** Two suffixes with different last characters cannot end one string. *)
Lemma endswith_last_differs s suffix1 suffix2 :
  last (String.list_ascii_of_string suffix1)
    <> last (String.list_ascii_of_string suffix2) ->
  suffix1 <> EmptyString -> suffix2 <> EmptyString ->
  Py.endswith s suffix1 = true -> Py.endswith s suffix2 = false.
Proof.
  intros Hlast Hne1 Hne2 [a ->]%endswith_inv.
  destruct (Py.endswith (a +:+ suffix1) suffix2) eqn:E; [|done].
  apply endswith_inv in E as [b E].
  apply (f_equal (fun x => last (String.list_ascii_of_string x))) in E.
  rewrite !list_ascii_app, !last_app in E.
  destruct suffix1 as [|c1 t1]; [done|]. destruct suffix2 as [|c2 t2]; [done|].
  destruct (last (String.list_ascii_of_string (String c1 t1))) eqn:E1.
  - destruct (last (String.list_ascii_of_string (String c2 t2))) eqn:E2.
    + congruence.
    + by apply last_None in E2.
  - by apply last_None in E1.
Qed.

End string_facts.

(* ------------------------------------------------------------------ *)
(** ** Detection by suffix *)

Section suffix_detection.
Implicit Types filename stem : string.

Local Ltac other_suffix suffix :=
  apply (endswith_last_differs _ suffix);
  [ vm_compute; congruence | done | done | apply endswith_app ].

Lemma extension_gz stem :
  _archive_type_from_extension (stem +:+ ".tar.gz") = Some ArchiveType.GZ.
Proof. unfold _archive_type_from_extension. by rewrite endswith_app. Qed.

Lemma extension_bz2 stem :
  _archive_type_from_extension (stem +:+ ".tar.bz2") = Some ArchiveType.BZ2.
Proof.
  unfold _archive_type_from_extension.
  assert (Py.endswith (stem +:+ ".tar.bz2") ".tar.gz" = false) as ->
    by other_suffix ".tar.bz2".
  by rewrite endswith_app.
Qed.

Lemma extension_zst stem :
  _archive_type_from_extension (stem +:+ ".tar.zst") = Some ArchiveType.ZST.
Proof.
  unfold _archive_type_from_extension.
  assert (Py.endswith (stem +:+ ".tar.zst") ".tar.gz" = false) as ->
    by other_suffix ".tar.zst".
  assert (Py.endswith (stem +:+ ".tar.zst") ".tar.bz2" = false) as ->
    by other_suffix ".tar.zst".
  by rewrite endswith_app.
Qed.

Lemma extension_zip stem :
  _archive_type_from_extension (stem +:+ ".zip") = Some ArchiveType.ZIP.
Proof.
  unfold _archive_type_from_extension.
  assert (Py.endswith (stem +:+ ".zip") ".tar.gz" = false) as ->
    by other_suffix ".zip".
  assert (Py.endswith (stem +:+ ".zip") ".tar.bz2" = false) as ->
    by other_suffix ".zip".
  assert (Py.endswith (stem +:+ ".zip") ".tar.zst" = false) as ->
    by other_suffix ".zip".
  by rewrite endswith_app.
Qed.

Lemma extension_None filename :
  _archive_type_from_extension filename = None
  <-> no_recognized_suffix filename.
Proof.
  unfold _archive_type_from_extension, no_recognized_suffix.
  destruct (Py.endswith filename ".tar.gz"),
           (Py.endswith filename ".tar.bz2"),
           (Py.endswith filename ".tar.zst"),
           (Py.endswith filename ".zip");
    (split; [ done | by intros (?&?&?&?) ]).
Qed.

(** Whatever the extension test returns is a non-empty string, so the
    [if f_type:] test takes it. *)
Lemma extension_truthy filename f_type :
  _archive_type_from_extension filename = Some f_type ->
  truthy (Some f_type) = true.
Proof.
  unfold _archive_type_from_extension.
  repeat case_match; intros [= <-]; reflexivity.
Qed.

Lemma detect_by_extension filename f_type w :
  _archive_type_from_extension filename = Some f_type ->
  detect_archive_type filename w = (Ok (Some f_type), w).
Proof.
  intros H. unfold detect_archive_type.
  rewrite H. cbv zeta. by rewrite (extension_truthy _ _ H).
Qed.

End suffix_detection.

(** C1.  A name that ends in ".tar.gz", ".tar.bz2", ".tar.zst" or ".zip" is
    given the identifier of that suffix (gz, bz2, zst, zip), whatever the
    file system holds under that name -- other magic bytes or no file at
    all -- and the world comes back unchanged: nothing was opened, nothing
    was read, nothing was logged. *)
Theorem detect_suffix_wins (stem : string) (w : world) :
  detect_archive_type (stem +:+ ".tar.gz") w = (Ok (Some "gz"), w)
  /\ detect_archive_type (stem +:+ ".tar.bz2") w = (Ok (Some "bz2"), w)
  /\ detect_archive_type (stem +:+ ".tar.zst") w = (Ok (Some "zst"), w)
  /\ detect_archive_type (stem +:+ ".zip") w = (Ok (Some "zip"), w).
Proof.
  repeat split; apply detect_by_extension.
  - apply extension_gz.
  - apply extension_bz2.
  - apply extension_zst.
  - apply extension_zip.
Qed.

(* ------------------------------------------------------------------ *)
(** ** Detection by signature *)

Section signature_detection.
Implicit Types (filename : string) (head data magic : list byte).
Implicit Types (items : list (list byte * string)).

Lemma magic_max : _ARCHIVE_MAGIC_NUMBERS_MAX = 4%nat.
Proof. reflexivity. Qed.

(** The loop returns the first entry, in the order of [items], whose
    magic starts [head]; [None] exactly when no entry does. *)
Lemma match_signature_first head items :
  match match_signature head items with
  | Some f_type =>
      exists i magic,
        items !! i = Some (magic, f_type)
        /\ Py.startswith head magic = true
        /\ forall j magic' f_type',
             (j < i)%nat -> items !! j = Some (magic', f_type') ->
             Py.startswith head magic' = false
  | None =>
      forall magic f_type,
        (magic, f_type) ∈ items -> Py.startswith head magic = false
  end.
Proof.
  induction items as [|[magic f_type] rest IH]; simpl.
  - intros magic f_type Hin. by apply elem_of_nil in Hin.
  - destruct (Py.startswith head magic) eqn:Hm.
    + exists 0%nat, magic. repeat split; [done|]. intros; lia.
    + destruct (match_signature head rest) as [t|].
      * destruct IH as (i & magic1 & Hi & Hs & Hbefore).
        exists (S i), magic1. repeat split; [done..|].
        intros [|j] magic' f_type' Hlt Hj; simpl in Hj.
        -- by injection Hj as <- <-.
        -- apply (Hbefore j magic' f_type'); [lia | done].
      * intros magic1 t1 [[= -> ->] | Hin]%elem_of_cons; [done|].
        by apply (IH magic1 t1).
Qed.

(** What the signature test does, whether the file can be opened or
    not. *)
Lemma signature_run filename w :
  _archive_type_from_signature filename w =
  match files w !! filename with
  | Some data =>
      (Ok (match_signature (take 4 data) _ARCHIVE_MAGIC_NUMBERS),
       after w (opened w)
         [EvOpen filename; EvRead filename 4; EvCloseFile filename])
  | None =>
      (Raise (OSError filename), after w (opened w) [EvOpen filename])
  end.
Proof.
  unfold _archive_type_from_signature, with_open_rb, builtin_open_rb,
    file_read, file_close, Run.try_finally, Run.bind, Run.emit,
    Run.acquire, Run.release, Run.ret, after.
  simpl. destruct (files w !! filename) as [data|]; simpl; [|done].
  rewrite decide_True by done. rewrite <- !app_assoc. reflexivity.
Qed.

Lemma detect_without_suffix filename w :
  no_recognized_suffix filename ->
  detect_archive_type filename w = _archive_type_from_signature filename w.
Proof.
  intros H%extension_None. unfold detect_archive_type. by rewrite H.
Qed.

End signature_detection.

(** C2.  For a name with no recognized suffix whose file can be read,
    detection opens the file, reads its first 4 bytes -- 4 being the length
    of the longest registered signature -- closes it, and returns the
    format of the first entry of the table, in the order gz, bz2, zip, zst,
    whose signature starts the bytes read; it returns [None] when no entry
    does, as for an empty file. *)
Theorem detect_by_signature (filename : string) (data : list byte)
    (w : world) :
  no_recognized_suffix filename ->
  files w !! filename = Some data ->
  let head := take 4 data in
  let found := match_signature head _ARCHIVE_MAGIC_NUMBERS in
  detect_archive_type filename w
  = (Ok found,
     after w (opened w)
       [EvOpen filename; EvRead filename 4; EvCloseFile filename])
  /\ (forall magic f_type,
        (magic, f_type) ∈ _ARCHIVE_MAGIC_NUMBERS -> (length magic <= 4)%nat)
  /\ (exists magic f_type,
        (magic, f_type) ∈ _ARCHIVE_MAGIC_NUMBERS /\ length magic = 4%nat)
  /\ snd <$> _ARCHIVE_MAGIC_NUMBERS = ["gz"; "bz2"; "zip"; "zst"]
  /\ match found with
     | Some f_type =>
         exists i magic,
           _ARCHIVE_MAGIC_NUMBERS !! i = Some (magic, f_type)
           /\ Py.startswith head magic = true
           /\ forall j magic' f_type',
                (j < i)%nat ->
                _ARCHIVE_MAGIC_NUMBERS !! j = Some (magic', f_type') ->
                Py.startswith head magic' = false
     | None =>
         forall magic f_type,
           (magic, f_type) ∈ _ARCHIVE_MAGIC_NUMBERS ->
           Py.startswith head magic = false
     end
  /\ (data = [] -> found = None).
Proof.
  intros Hsuffix Hfile head found. repeat split.
  - rewrite (detect_without_suffix _ _ Hsuffix), signature_run, Hfile.
    reflexivity.
  - intros magic f_type Hin. unfold _ARCHIVE_MAGIC_NUMBERS in Hin.
    repeat (apply elem_of_cons in Hin as [[= -> ->] | Hin]; [simpl; lia|]).
    by apply elem_of_nil in Hin.
  - exists [x50; x4b; x03; x04], ArchiveType.ZIP. split; [|done].
    unfold _ARCHIVE_MAGIC_NUMBERS. rewrite !elem_of_cons. auto.
  - apply match_signature_first.
  - intros ->. reflexivity.
Qed.

Lemma detect_by_signature_witness :
  no_recognized_suffix "pkg.bin"
  /\ files example_world !! "pkg.bin" = Some [x1f; x8b; x08; x00; x00]
  /\ detect_archive_type "pkg.bin" example_world
     = (Ok (Some "gz"),
        after example_world []
          [EvOpen "pkg.bin"; EvRead "pkg.bin" 4; EvCloseFile "pkg.bin"]).
Proof.
  assert (no_recognized_suffix "pkg.bin") as Hsuffix
    by (repeat split; reflexivity).
  assert (files example_world !! "pkg.bin" = Some [x1f; x8b; x08; x00; x00])
    as Hfile by (vm_compute; reflexivity).
  split; [exact Hsuffix | split; [exact Hfile |]].
  exact (proj1 (detect_by_signature "pkg.bin" _ example_world Hsuffix Hfile)).
Defined.

(** C10.  For a name with no recognized suffix, detection always attempts
    to open the path, and when the path is missing or unreadable the
    [OSError] of [open] leaves [detect_archive_type] -- it does not return
    [None].  For a name with a recognized suffix the identifier is returned
    with the world untouched even though no such file exists. *)
Theorem detect_missing_file (filename stem : string) (w : world) :
  no_recognized_suffix filename ->
  files w !! filename = None ->
  detect_archive_type filename w
  = (Raise (OSError filename), after w (opened w) [EvOpen filename])
  /\ (files w !! (stem +:+ ".tar.gz") = None ->
      detect_archive_type (stem +:+ ".tar.gz") w = (Ok (Some "gz"), w))
  /\ (files w !! (stem +:+ ".tar.bz2") = None ->
      detect_archive_type (stem +:+ ".tar.bz2") w = (Ok (Some "bz2"), w))
  /\ (files w !! (stem +:+ ".tar.zst") = None ->
      detect_archive_type (stem +:+ ".tar.zst") w = (Ok (Some "zst"), w))
  /\ (files w !! (stem +:+ ".zip") = None ->
      detect_archive_type (stem +:+ ".zip") w = (Ok (Some "zip"), w)).
Proof.
  intros Hsuffix Hfile. split.
  - rewrite (detect_without_suffix _ _ Hsuffix), signature_run, Hfile.
    reflexivity.
  - repeat split; intros _; apply detect_by_extension.
    + apply extension_gz.
    + apply extension_bz2.
    + apply extension_zst.
    + apply extension_zip.
Qed.

Lemma detect_missing_file_witness :
  no_recognized_suffix "gone.bin"
  /\ files example_world !! "gone.bin" = None
  /\ detect_archive_type "gone.bin" example_world
     = (Raise (OSError "gone.bin"),
        after example_world [] [EvOpen "gone.bin"])
  /\ files example_world !! "gone.tar.zst" = None
  /\ detect_archive_type "gone.tar.zst" example_world
     = (Ok (Some "zst"), example_world).
Proof.
  assert (no_recognized_suffix "gone.bin") as Hsuffix
    by (repeat split; reflexivity).
  assert (files example_world !! "gone.bin" = None) as Hfile
    by (vm_compute; reflexivity).
  assert (files example_world !! "gone.tar.zst" = None) as Hzst
    by (vm_compute; reflexivity).
  pose proof (detect_missing_file "gone.bin" "gone" example_world
                Hsuffix Hfile) as (Hraise & _ & _ & Hfound & _).
  split; [exact Hsuffix | split; [exact Hfile | split; [exact Hraise |]]].
  split; [exact Hzst | exact (Hfound Hzst)].
Defined.

(* ------------------------------------------------------------------ *)
(** ** The signature table *)

Section signature_table.
Implicit Types (head magic : list byte).
Implicit Types (items : list (list byte * string)).

Lemma startswith_cons_inv head b magic :
  Py.startswith head (b :: magic) = true ->
  exists rest, head = b :: rest /\ Py.startswith rest magic = true.
Proof.
  destruct head as [|h rest]; simpl; [done|].
  intros [Hb Hrest]%andb_true_iff. apply Byte.byte_dec_bl in Hb as ->.
  by exists rest.
Qed.

(** Entries of the table are told apart by their first byte. *)
Lemma table_first_bytes head magic1 f_type1 magic2 f_type2 :
  (magic1, f_type1) ∈ _ARCHIVE_MAGIC_NUMBERS ->
  (magic2, f_type2) ∈ _ARCHIVE_MAGIC_NUMBERS ->
  Py.startswith head magic1 = true ->
  Py.startswith head magic2 = true ->
  (magic1, f_type1) = (magic2, f_type2).
Proof.
  unfold _ARCHIVE_MAGIC_NUMBERS. rewrite !elem_of_cons, !elem_of_nil.
  intros H1 H2 S1 S2.
  destruct H1 as [[= -> ->]|[[= -> ->]|[[= -> ->]|[[= -> ->]|[]]]]];
    destruct H2 as [[= -> ->]|[[= -> ->]|[[= -> ->]|[[= -> ->]|[]]]]];
    try reflexivity;
    apply startswith_cons_inv in S1 as (rest1 & -> & _);
    apply startswith_cons_inv in S2 as (rest2 & [=] & _).
Qed.

(** With at most one matching entry, the loop finds the same entry in
    whatever order it walks the entries. *)
Lemma match_signature_unique head items magic f_type :
  (forall magic1 f_type1 magic2 f_type2,
      (magic1, f_type1) ∈ items -> (magic2, f_type2) ∈ items ->
      Py.startswith head magic1 = true ->
      Py.startswith head magic2 = true ->
      (magic1, f_type1) = (magic2, f_type2)) ->
  (magic, f_type) ∈ items ->
  Py.startswith head magic = true ->
  match_signature head items = Some f_type.
Proof.
  intros Huniq Hin Hs.
  pose proof (match_signature_first head items) as Hfirst.
  destruct (match_signature head items) as [t|].
  - destruct Hfirst as (i & magic' & Hi & Hs' & _).
    apply list_elem_of_lookup_2 in Hi.
    by injection (Huniq _ _ _ _ Hin Hi Hs Hs') as _ ->.
  - by rewrite (Hfirst magic f_type Hin) in Hs.
Qed.

End signature_table.

(** C9.  The signature table is unambiguous: no registered magic is a
    prefix of the magic of another entry, no byte sequence starts with the
    magic of two distinct entries, and so the signature test returns the
    same answer in whatever order the entries are walked. *)
Theorem signature_table_unambiguous :
  (forall magic1 f_type1 magic2 f_type2,
      (magic1, f_type1) ∈ _ARCHIVE_MAGIC_NUMBERS ->
      (magic2, f_type2) ∈ _ARCHIVE_MAGIC_NUMBERS ->
      Py.startswith magic2 magic1 = true ->
      (magic1, f_type1) = (magic2, f_type2))
  /\ (forall head magic1 f_type1 magic2 f_type2,
      (magic1, f_type1) ∈ _ARCHIVE_MAGIC_NUMBERS ->
      (magic2, f_type2) ∈ _ARCHIVE_MAGIC_NUMBERS ->
      Py.startswith head magic1 = true ->
      Py.startswith head magic2 = true ->
      (magic1, f_type1) = (magic2, f_type2))
  /\ (forall head items,
      items ≡ₚ _ARCHIVE_MAGIC_NUMBERS ->
      match_signature head items
      = match_signature head _ARCHIVE_MAGIC_NUMBERS).
Proof.
  split; [|split].
  - intros magic1 f_type1 magic2 f_type2 H1 H2 Hpre.
    apply (table_first_bytes magic2); [done | done | done |].
    clear -H2. unfold _ARCHIVE_MAGIC_NUMBERS in H2.
    rewrite !elem_of_cons, !elem_of_nil in H2.
    by destruct H2 as [[= -> ->]|[[= -> ->]|[[= -> ->]|[[= -> ->]|[]]]]].
  - apply table_first_bytes.
  - intros head items Hperm.
    pose proof (match_signature_first head _ARCHIVE_MAGIC_NUMBERS) as Hfirst.
    destruct (match_signature head _ARCHIVE_MAGIC_NUMBERS) as [t|].
    + destruct Hfirst as (i & magic & Hi & Hs & _).
      apply list_elem_of_lookup_2 in Hi.
      apply (match_signature_unique head items magic t); [| |done].
      * intros m1 t1 m2 t2 Hin1 Hin2. rewrite Hperm in Hin1, Hin2.
        by apply table_first_bytes.
      * by rewrite Hperm.
    + pose proof (match_signature_first head items) as Hitems.
      destruct (match_signature head items) as [t|]; [|done].
      destruct Hitems as (i & magic & Hi & Hs & _).
      apply list_elem_of_lookup_2 in Hi. rewrite Hperm in Hi.
      by rewrite (Hfirst magic t Hi) in Hs.
Qed.

(* ------------------------------------------------------------------ *)
(** ** [ZstdTarFile]: construction and close *)

Section zstd_tar_file.
Variable L : library.
Implicit Types (name mode : string) (w : world) (self : ZstdTarFile).

Local Ltac run :=
  unfold ZstdTarFile_init, ZstdTarFile_close, ZstdFile, super_init,
    super_close, zstd_file_close, Run.try_except_reraise, Run.try_finally,
    Run.bind, Run.emit, Run.acquire, Run.release, Run.answer, Run.raise,
    Run.ret, after; simpl.

(** All the ways [__init__] can end. *)
Lemma init_run name mode level w :
  let calls := [EvZstdFile name mode (zstdoption L mode level);
                EvTarInit name mode] in
  ZstdTarFile_init L name mode level w =
  match ZstdFile_new L name mode with
  | Some e0 =>
      (Raise e0,
       after w (opened w) [EvZstdFile name mode (zstdoption L mode level)])
  | None =>
      match TarFile_init L name mode with
      | None =>
          (Ok {| zstd_file := name; tar_mode := mode |},
           after w (RTar name :: RZstd name :: opened w) calls)
      | Some e =>
          match ZstdFile_close L name with
          | None =>
              (Raise e, after w (opened w) (calls ++ [EvZstdClose name]))
          | Some e' =>
              (Raise e', after w (RZstd name :: opened w)
                           (calls ++ [EvZstdClose name]))
          end
      end
  end.
Proof.
  run. destruct (ZstdFile_new L name mode); simpl; [done|].
  destruct (TarFile_init L name mode); simpl.
  - destruct (ZstdFile_close L name); simpl;
      rewrite <- ?app_assoc; simpl; [done|].
    by rewrite decide_True.
  - by rewrite <- !app_assoc.
Qed.

(** All the ways [close] can end. *)
Lemma close_run self w :
  let n := zstd_file self in
  let calls := [EvTarClose n; EvZstdClose n] in
  ZstdTarFile_close L self w =
  match TarFile_close L n, ZstdFile_close L n with
  | None, None =>
      (Ok tt,
       after w (Run.remove_one (RZstd n) (Run.remove_one (RTar n) (opened w)))
         calls)
  | Some e, None =>
      (Raise e, after w (Run.remove_one (RZstd n) (opened w)) calls)
  | None, Some e' =>
      (Raise e', after w (Run.remove_one (RTar n) (opened w)) calls)
  | Some e, Some e' => (Raise e', after w (opened w) calls)
  end.
Proof.
  run. destruct (TarFile_close L (zstd_file self)),
         (ZstdFile_close L (zstd_file self)); simpl;
    by rewrite <- !app_assoc.
Qed.

End zstd_tar_file.

(** C4, as the code has it.  The [close] of the zstd stream is called on
    every exit path.  When the tar reader cannot be constructed around the
    opened stream, [__init__] calls the stream's [close] before it leaves.
    [close] calls the tar-level close first and the stream's [close] second,
    whatever the tar-level close did.  With the stream's [close] returning,
    the stream is no longer open and the construction error, or the outcome
    of the tar-level close -- its error, if it raised -- is what leaves.
    With the stream's [close] itself raising, its exception is the one that
    leaves, in place of the construction error or the tar-level one. *)
Theorem zstd_stream_closed_on_every_exit (L : library) (name mode : string)
    (level : Z) (self : ZstdTarFile) (w : world) :
  let init_calls := [EvZstdFile name mode (zstdoption L mode level);
                     EvTarInit name mode; EvZstdClose name] in
  let n := zstd_file self in
  (forall e,
      ZstdFile_new L name mode = None ->
      TarFile_init L name mode = Some e ->
      log (ZstdTarFile_init L name mode level w).2 = log w ++ init_calls
      /\ (ZstdFile_close L name = None ->
          ZstdTarFile_init L name mode level w
          = (Raise e, after w (opened w) init_calls))
      /\ (forall e', ZstdFile_close L name = Some e' ->
          (ZstdTarFile_init L name mode level w).1 = Raise e'))
  /\ log (ZstdTarFile_close L self w).2
     = log w ++ [EvTarClose n; EvZstdClose n]
  /\ (ZstdFile_close L n = None ->
      (ZstdTarFile_close L self w).1
      = match TarFile_close L n with
        | None => Ok tt
        | Some e => Raise e
        end
      /\ opened (ZstdTarFile_close L self w).2
         = Run.remove_one (RZstd n)
             match TarFile_close L n with
             | None => Run.remove_one (RTar n) (opened w)
             | Some _ => opened w
             end)
  /\ (forall e', ZstdFile_close L n = Some e' ->
      (ZstdTarFile_close L self w).1 = Raise e').
Proof.
  intros init_calls n. split; [|split; [|split]].
  - intros e Hzstd Htar. pose proof (init_run L name mode level w) as Hrun.
    cbv zeta in Hrun. rewrite Hzstd, Htar in Hrun. rewrite Hrun.
    split; [|split].
    + by destruct (ZstdFile_close L name).
    + by intros ->.
    + by intros e' ->.
  - rewrite close_run.
    by destruct (TarFile_close L (zstd_file self)),
                (ZstdFile_close L (zstd_file self)).
  - intros Hclose. rewrite close_run. cbv zeta. fold n. rewrite Hclose.
    by destruct (TarFile_close L n).
  - intros e' Hclose. rewrite close_run. cbv zeta. fold n. rewrite Hclose.
    by destruct (TarFile_close L n).
Qed.

Lemma zstd_stream_closed_witness :
  ZstdTarFile_init tar_failing_library "pkg.tar.zst" "r" 4 example_world
  = (Raise (LibraryError "tarfile.ReadError"),
     after example_world []
       [EvZstdFile "pkg.tar.zst" "r" None; EvTarInit "pkg.tar.zst" "r";
        EvZstdClose "pkg.tar.zst"])
  /\ (ZstdTarFile_close tar_failing_library
        {| zstd_file := "pkg.tar.zst"; tar_mode := "r" |}
        (after example_world [RTar "pkg.tar.zst"; RZstd "pkg.tar.zst"] [])).1
     = Raise (LibraryError "tarfile.close")
  /\ opened (ZstdTarFile_close tar_failing_library
        {| zstd_file := "pkg.tar.zst"; tar_mode := "r" |}
        (after example_world [RTar "pkg.tar.zst"; RZstd "pkg.tar.zst"] [])).2
     = [RTar "pkg.tar.zst"]
  /\ (ZstdTarFile_close closes_failing_library
        {| zstd_file := "pkg.tar.zst"; tar_mode := "r" |}
        (after example_world [RTar "pkg.tar.zst"; RZstd "pkg.tar.zst"] [])).1
     = Raise (LibraryError "zstd.close").
Proof.
  pose proof (zstd_stream_closed_on_every_exit tar_failing_library
                "pkg.tar.zst" "r" 4
                {| zstd_file := "pkg.tar.zst"; tar_mode := "r" |}
                example_world) as (Hinit & _).
  pose proof (zstd_stream_closed_on_every_exit tar_failing_library
                "pkg.tar.zst" "r" 4
                {| zstd_file := "pkg.tar.zst"; tar_mode := "r" |}
                (after example_world
                   [RTar "pkg.tar.zst"; RZstd "pkg.tar.zst"] []))
    as (_ & _ & Hclose & _).
  pose proof (zstd_stream_closed_on_every_exit closes_failing_library
                "pkg.tar.zst" "r" 4
                {| zstd_file := "pkg.tar.zst"; tar_mode := "r" |}
                (after example_world
                   [RTar "pkg.tar.zst"; RZstd "pkg.tar.zst"] []))
    as (_ & _ & _ & Hboth).
  split; [|split; [|split]].
  - exact (proj1 (proj2 (Hinit (LibraryError "tarfile.ReadError")
                           eq_refl eq_refl)) eq_refl).
  - exact (proj1 (Hclose eq_refl)).
  - exact (proj2 (Hclose eq_refl)).
  - exact (Hboth (LibraryError "zstd.close") eq_refl).
Defined.

(** C4 as stated does not hold: when the tar-level close raises and the
    close of the zstd stream raises too, it is the stream's exception that
    leaves [close], not the tar-level one, and the stream has not been
    closed. *)
Lemma zstd_close_error_replaces_tar_error :
  ~ (forall (L : library) (self : ZstdTarFile) (w : world) (e : exn),
        TarFile_close L (zstd_file self) = Some e ->
        (ZstdTarFile_close L self w).1 = Raise e
        /\ RZstd (zstd_file self) ∉ opened (ZstdTarFile_close L self w).2).
Proof.
  intros H.
  destruct (H closes_failing_library
              {| zstd_file := "pkg.tar.zst"; tar_mode := "r" |}
              (after example_world
                 [RTar "pkg.tar.zst"; RZstd "pkg.tar.zst"] [])
              (LibraryError "tarfile.close") eq_refl) as [Herror _].
  vm_compute in Herror. discriminate.
Qed.

(** When the stream's own [close] raises as well, that later exception is
    the one that leaves [close]: an exception raised in a [finally] block
    replaces the one that was propagating. *)
Lemma close_both_raise (L : library) (self : ZstdTarFile) (w : world)
    (e e' : exn) :
  TarFile_close L (zstd_file self) = Some e ->
  ZstdFile_close L (zstd_file self) = Some e' ->
  (ZstdTarFile_close L self w).1 = Raise e'.
Proof. intros Ht Hz. rewrite close_run. cbv zeta. by rewrite Ht, Hz. Qed.

(* ------------------------------------------------------------------ *)
(** ** [open_archive] *)

Section open_archive_facts.
Variable L : library.
Implicit Types (filename : string) (f_type : option string) (w : world).

Lemma py_eq_true f_type s : py_eq f_type s = true <-> f_type = Some s.
Proof.
  destruct f_type as [t|]; simpl; [|done].
  rewrite String.eqb_eq. split; [by intros -> | by intros [= ->]].
Qed.

Lemma py_eq_false f_type s : py_eq f_type s = false <-> f_type <> Some s.
Proof.
  rewrite <- py_eq_true. by destruct (py_eq f_type s).
Qed.

Lemma zipfile_run filename mode w :
  zipfile_ZipFile L filename mode w
  = (match ZipFile_new L filename mode with
     | None => Ok (ArZip filename mode)
     | Some e => Raise e
     end, after w (opened w) [EvZipFile filename mode]).
Proof.
  unfold zipfile_ZipFile, Run.bind, Run.emit, Run.answer, Run.raise,
    Run.ret, after. simpl. by destruct (ZipFile_new L filename mode).
Qed.

Lemma tarfile_open_run filename mode w :
  tarfile_open L filename mode w
  = (match tarfile_open_result L filename mode with
     | None => Ok (ArTar filename mode)
     | Some e => Raise e
     end, after w (opened w) [EvTarfileOpen filename mode]).
Proof.
  unfold tarfile_open, Run.bind, Run.emit, Run.answer, Run.raise,
    Run.ret, after. simpl. by destruct (tarfile_open_result L filename mode).
Qed.

(** Once detection has returned, the rest of [open_archive] runs in the
    world detection left. *)
Lemma open_archive_after_detect filename f_type w w' :
  detect_archive_type filename w = (Ok f_type, w') ->
  open_archive L filename w
  = (if py_eq f_type ArchiveType.ZST then
       z <- ZstdTarFile_init L filename "r" 4 ;; Run.ret (ArZstdTar z)
     else if py_eq f_type ArchiveType.ZIP then zipfile_ZipFile L filename "r"
     else tarfile_open L filename "r") w'.
Proof. intros H. unfold open_archive, Run.bind at 1. by rewrite H. Qed.

End open_archive_facts.

(** C3.  [open_archive] dispatches on what detection returned.  On zst it
    constructs a [ZstdTarFile] on the path in mode "r" (no compression
    options), which is the archive returned once the zstd stream and the tar
    reader around it are set up.  On zip it opens a [zipfile.ZipFile] on the
    path.  On anything else -- gz, bz2 or [None] -- it calls [tarfile.open]
    on the path, so that the call fails only if [tarfile.open] does. *)
Theorem open_archive_dispatch (L : library) (filename : string)
    (f_type : option string) (w w' : world) :
  detect_archive_type filename w = (Ok f_type, w') ->
  (f_type = Some "zst" ->
     open_archive L filename w
     = match ZstdTarFile_init L filename "r" 4 w' with
       | (Ok z, w'') => (Ok (ArZstdTar z), w'')
       | (Raise e, w'') => (Raise e, w'')
       end
     /\ (ZstdFile_new L filename "r" = None ->
         TarFile_init L filename "r" = None ->
         open_archive L filename w
         = (Ok (ArZstdTar {| zstd_file := filename; tar_mode := "r" |}),
            after w' (RTar filename :: RZstd filename :: opened w')
              [EvZstdFile filename "r" None; EvTarInit filename "r"])))
  /\ (f_type = Some "zip" ->
      open_archive L filename w
      = (match ZipFile_new L filename "r" with
         | None => Ok (ArZip filename "r")
         | Some e => Raise e
         end, after w' (opened w') [EvZipFile filename "r"]))
  /\ (f_type <> Some "zst" -> f_type <> Some "zip" ->
      open_archive L filename w
      = (match tarfile_open_result L filename "r" with
         | None => Ok (ArTar filename "r")
         | Some e => Raise e
         end, after w' (opened w') [EvTarfileOpen filename "r"])).
Proof.
  intros Hdetect.
  rewrite (open_archive_after_detect L filename f_type w w' Hdetect).
  split; [|split].
  - intros ->.
    replace (py_eq (Some "zst") ArchiveType.ZST) with true by reflexivity.
    unfold Run.bind, Run.ret.
    split; [by destruct (ZstdTarFile_init L filename "r" 4 w') as [[z|e] w'']|].
    intros Hzstd Htar.
    pose proof (init_run L filename "r" 4 w') as Hrun. cbv zeta in Hrun.
    by rewrite Hrun, Hzstd, Htar.
  - intros ->.
    replace (py_eq (Some "zip") ArchiveType.ZST) with false by reflexivity.
    replace (py_eq (Some "zip") ArchiveType.ZIP) with true by reflexivity.
    apply zipfile_run.
  - intros Hzst%py_eq_false Hzip%py_eq_false.
    unfold ArchiveType.ZST, ArchiveType.ZIP. rewrite Hzst, Hzip.
    apply tarfile_open_run.
Qed.

Lemma open_archive_dispatch_witness :
  detect_archive_type "empty.bin" example_world
  = (Ok None,
     after example_world []
       [EvOpen "empty.bin"; EvRead "empty.bin" 4; EvCloseFile "empty.bin"])
  /\ open_archive tar_failing_library "empty.bin" example_world
     = (Ok (ArTar "empty.bin" "r"),
        after example_world []
          [EvOpen "empty.bin"; EvRead "empty.bin" 4; EvCloseFile "empty.bin";
           EvTarfileOpen "empty.bin" "r"]).
Proof.
  assert (detect_archive_type "empty.bin" example_world
          = (Ok None,
             after example_world []
               [EvOpen "empty.bin"; EvRead "empty.bin" 4;
                EvCloseFile "empty.bin"])) as Hdetect
    by (vm_compute; reflexivity).
  split; [exact Hdetect|].
  refine (eq_trans
            (proj2 (proj2 (open_archive_dispatch tar_failing_library
                             "empty.bin" None example_world _ Hdetect))
               _ _) _).
  - discriminate.
  - discriminate.
  - reflexivity.
Defined.

(* ------------------------------------------------------------------ *)
(** ** Lists: indexing and slices as [split_tarname] uses them *)

Section list_facts.
Context {A : Type}.
Implicit Types (l mid : list A) (x y z : A).

Lemma getitem_last l x : Py.getitem (l ++ [x]) (-1) = Ok x.
Proof.
  unfold Py.getitem, Py.item_index. rewrite length_app. simpl.
  replace (-1 + Z.of_nat (length l + 1)) with (Z.of_nat (length l)) by lia.
  rewrite (proj2 (Z.leb_le _ _)) by lia.
  rewrite (proj2 (Z.ltb_lt _ _)) by lia.
  simpl. rewrite Nat2Z.id. by rewrite list_lookup_middle.
Qed.

Lemma setitem_last l x y : Py.setitem (l ++ [x]) (-1) y = Ok (l ++ [y]).
Proof.
  unfold Py.setitem, Py.item_index. rewrite length_app. simpl.
  replace (-1 + Z.of_nat (length l + 1)) with (Z.of_nat (length l)) by lia.
  rewrite (proj2 (Z.leb_le _ _)) by lia.
  rewrite (proj2 (Z.ltb_lt _ _)) by lia.
  simpl. rewrite Nat2Z.id. f_equal.
  rewrite insert_app_r_alt by lia. by rewrite Nat.sub_diag.
Qed.

Lemma getitem_first x l : Py.getitem (x :: l) 0 = Ok x.
Proof.
  reflexivity.
Qed.

Lemma setitem_first x y l : Py.setitem (x :: l) 0 y = Ok (y :: l).
Proof.
  reflexivity.
Qed.

Lemma getitem_nil (i : Z) : Py.getitem (@nil A) i = Raise IndexError.
Proof.
  assert (forall j, (0 <=? j) && (j <? 0) = false) as Hempty.
  { intros j. destruct (Z.leb_spec 0 j), (Z.ltb_spec j 0); simpl; lia. }
  unfold Py.getitem, Py.item_index. simpl. by rewrite Hempty.
Qed.

Lemma slice_bound_1 (n : nat) : (1 <= n)%nat -> Py.slice_bound n 1 = 1%nat.
Proof. unfold Py.slice_bound. simpl. lia. Qed.

Lemma slice_bound_minus_2 (n : nat) :
  (2 <= n)%nat -> Py.slice_bound n (-2) = (n - 2)%nat.
Proof. unfold Py.slice_bound. simpl. lia. Qed.

Lemma length_interior x mid y z :
  length (x :: mid ++ [y; z]) = (length mid + 3)%nat.
Proof. rewrite length_cons, length_app. simpl. lia. Qed.

(** [l[1:-2]] of a list of at least three elements is what lies between
    the first element and the last two. *)
Lemma getslice_interior x mid y z :
  Py.getslice (x :: mid ++ [y; z]) 1 (-2) = mid.
Proof.
  unfold Py.getslice. rewrite length_interior.
  rewrite slice_bound_1, slice_bound_minus_2 by lia.
  replace (length mid + 3 - 2 - 1)%nat with (length mid) by lia.
  simpl. apply take_app_length.
Qed.

(** [l[1:-2] = [v]] leaves the first element, [v], and the last two. *)
Lemma setslice_interior x mid y z (v : A) :
  Py.setslice (x :: mid ++ [y; z]) 1 (-2) [v] = [x; v; y; z].
Proof.
  unfold Py.setslice. rewrite length_interior.
  rewrite slice_bound_1, slice_bound_minus_2 by lia.
  replace (Nat.max 1 (length mid + 3 - 2)) with (S (length mid)) by lia.
  simpl. by rewrite drop_app_length.
Qed.

(** A list of at least three elements has a first element, an interior
    and two last elements. *)
Lemma interior_decompose l :
  (3 <= length l)%nat ->
  exists x mid y z,
    l = x :: mid ++ [y; z] /\ length l = (length mid + 3)%nat.
Proof.
  destruct l as [|x l]; simpl; [lia|]. intros Hlen.
  assert (length (drop (length l - 2) l) = 2%nat) as Hdrop
    by (rewrite length_drop; lia).
  destruct (drop (length l - 2) l) as [|y [|z [|? ?]]] eqn:E;
    simpl in Hdrop; try lia.
  exists x, (take (length l - 2) l), y, z. split.
  - by rewrite <- E, take_drop.
  - rewrite length_take. lia.
Qed.

End list_facts.

(* ------------------------------------------------------------------ *)
(** ** [split_tarname] *)

Section split_tarname_facts.
Implicit Types (s pathname ext : string) (fileparts : list string).

Lemma split_cons (sep : ascii) s :
  exists x xs, Py.split sep s = x :: xs.
Proof.
  destruct s as [|c s]; simpl; [eauto|].
  destruct (Ascii.eqb c sep); [eauto|].
  destruct (Py.split sep s); eauto.
Qed.

(** [split] gives a single piece exactly when the separator does not
    occur. *)
Lemma split_singleton (sep : ascii) s :
  length (Py.split sep s) = 1%nat
  <-> sep ∉ String.list_ascii_of_string s.
Proof.
  induction s as [|c s IH]; simpl.
  - split; [intros _; apply not_elem_of_nil | done].
  - destruct (Ascii.eqb_spec c sep) as [->|Hne].
    + destruct (split_cons sep s) as (x & xs & ->). simpl.
      split; [lia | intros H; destruct H; apply elem_of_cons; by left].
    + destruct (split_cons sep s) as (x & xs & E). rewrite E in IH |- *.
      simpl in *. rewrite IH, not_elem_of_cons.
      split; [intros H; split; [congruence | done] | by intros [_ H]].
Qed.

(** Lines 235-244 on a non-empty list of dash-tokens. *)
Lemma lop_extension_snoc (front : list string) (last_part first : string)
    (rest : list string) :
  Py.split "." last_part = first :: rest ->
  lop_extension (front ++ [last_part])
  = Ok (front ++ [first], Py.join "." (EmptyString :: rest)).
Proof.
  intros Hsplit. unfold lop_extension.
  rewrite getitem_last. cbn [and_then]. rewrite Hsplit, getitem_first.
  cbn [and_then]. rewrite setitem_last. cbn [and_then].
  by rewrite setitem_first.
Qed.

(** The extension is taken off without raising, the number of tokens
    stays, and the extension is empty exactly when the last token has no
    dot. *)
Lemma tarname_tokens_ok pathname :
  exists front last_part first rest,
    Py.split "-" (snd (Py.os_path_split pathname)) = front ++ [last_part]
    /\ Py.split "." last_part = first :: rest
    /\ tarname_tokens pathname
       = Ok (front ++ [first], Py.join "." (EmptyString :: rest)).
Proof.
  unfold tarname_tokens.
  destruct (split_cons "-" (snd (Py.os_path_split pathname)))
    as (x & xs & E).
  assert (exists front last_part, x :: xs = front ++ [last_part])
    as (front & last_part & Hsnoc).
  { destruct (last (x :: xs)) as [y|] eqn:Hlast.
    - apply last_Some in Hlast as [front ->]. eauto.
    - by apply last_None in Hlast. }
  destruct (split_cons "." last_part) as (first & rest & Hdot).
  exists front, last_part, first, rest. rewrite E, Hsnoc.
  by rewrite (lop_extension_snoc _ _ _ _ Hdot).
Qed.

Lemma split_tarname_unfold pathname :
  split_tarname pathname
  = and_then (tarname_tokens pathname) (fun '(fileparts, ext) =>
      if (length (recombine fileparts) <? 4)%nat
      then Raise (AutobuildError
                    (incompatible_archive_name
                       (snd (Py.os_path_split pathname))))
      else Ok (fst (Py.os_path_split pathname), recombine fileparts, ext)).
Proof.
  unfold split_tarname, tarname_tokens.
  by destruct (Py.os_path_split pathname) as [dir filename].
Qed.

(** More than four tokens are recombined to exactly four. *)
Lemma recombine_interior (first : string) (mid : list string)
    (platform qualifier : string) :
  (2 <= length mid)%nat ->
  recombine (first :: mid ++ [platform; qualifier])
  = [first; Py.join "-" mid; platform; qualifier].
Proof.
  intros Hmid. unfold recombine. rewrite length_interior.
  rewrite (proj2 (Nat.ltb_lt 4 _)) by lia.
  by rewrite getslice_interior, setslice_interior.
Qed.

Lemma recombine_length fileparts :
  length (recombine fileparts)
  = if (4 <? length fileparts)%nat then 4%nat else length fileparts.
Proof.
  unfold recombine. destruct (Nat.ltb_spec 4 (length fileparts)); [|done].
  destruct (interior_decompose fileparts) as (x & mid & y & z & -> & _);
    [lia|].
  by rewrite getslice_interior, setslice_interior.
Qed.

End split_tarname_facts.

(** C7.  The example of the docstring: the path
    "/some/path/boost-1.39.0-darwin-20100222a.tar.bz2" splits into the
    directory "/some/path", the components boost, 1.39.0, darwin and
    20100222a, and the extension ".tar.bz2". *)
Theorem split_tarname_docstring :
  split_tarname "/some/path/boost-1.39.0-darwin-20100222a.tar.bz2"
  = Ok ("/some/path", ["boost"; "1.39.0"; "darwin"; "20100222a"], ".tar.bz2").
Proof. reflexivity. Qed.

(** C5.  When the dash-tokens, with the extension moved off the last one,
    are more than four, everything between the first token and the last two
    is joined with dashes into one token, which leaves exactly the four
    components first, joined interior, platform and qualifier; so
    "mypkg-2009-08-30-darwin-20100222a.tar.gz", with six dash-tokens, gives
    mypkg, 2009-08-30, darwin, 20100222a and the extension ".tar.gz". *)
Theorem split_tarname_merges_interior :
  (forall pathname fileparts ext,
      tarname_tokens pathname = Ok (fileparts, ext) ->
      (4 < length fileparts)%nat ->
      exists first mid platform qualifier,
        fileparts = first :: mid ++ [platform; qualifier]
        /\ split_tarname pathname
           = Ok (fst (Py.os_path_split pathname),
                 [first; Py.join "-" mid; platform; qualifier], ext))
  /\ tarname_tokens "mypkg-2009-08-30-darwin-20100222a.tar.gz"
     = Ok (["mypkg"; "2009"; "08"; "30"; "darwin"; "20100222a"], ".tar.gz")
  /\ split_tarname "mypkg-2009-08-30-darwin-20100222a.tar.gz"
     = Ok ("", ["mypkg"; "2009-08-30"; "darwin"; "20100222a"], ".tar.gz").
Proof.
  split; [|split; reflexivity].
  intros pathname fileparts ext Htokens Hlen.
  destruct (interior_decompose fileparts)
    as (first & mid & platform & qualifier & -> & Hmid); [lia|].
  exists first, mid, platform, qualifier. split; [done|].
  rewrite split_tarname_unfold, Htokens. cbn [and_then].
  by rewrite recombine_interior by lia.
Qed.

Lemma split_tarname_merges_interior_witness :
  exists first mid platform qualifier,
    ["mypkg"; "2009"; "08"; "30"; "darwin"; "20100222a"]
    = first :: mid ++ [platform; qualifier]
    /\ split_tarname "mypkg-2009-08-30-darwin-20100222a.tar.gz"
       = Ok ("", [first; Py.join "-" mid; platform; qualifier], ".tar.gz").
Proof.
  apply (proj1 split_tarname_merges_interior
           "mypkg-2009-08-30-darwin-20100222a.tar.gz").
  - reflexivity.
  - simpl. lia.
Defined.

(** C6, as the code has it.  [split_tarname] raises exactly when fewer than
    four components remain after the recombination; what it raises is an
    [AutobuildError] whose message is "Incompatible archive name '<file
    name>' lacks some components", with the file name but without a count;
    otherwise it returns the directory, the recombined components and the
    extension.  "badname.zip" raises. *)
Theorem split_tarname_fails_iff :
  (forall pathname,
      exists fileparts ext,
        tarname_tokens pathname = Ok (fileparts, ext)
        /\ ((exists e, split_tarname pathname = Raise e)
            <-> (length (recombine fileparts) < 4)%nat)
        /\ ((length (recombine fileparts) < 4)%nat ->
            split_tarname pathname
            = Raise (AutobuildError
                       ("Incompatible archive name '"
                        +:+ snd (Py.os_path_split pathname)
                        +:+ "' lacks some components")))
        /\ ((4 <= length (recombine fileparts))%nat ->
            split_tarname pathname
            = Ok (fst (Py.os_path_split pathname),
                  recombine fileparts, ext)))
  /\ tarname_tokens "badname.zip" = Ok (["badname"], ".zip")
  /\ split_tarname "badname.zip"
     = Raise (AutobuildError
                "Incompatible archive name 'badname.zip' lacks some components").
Proof.
  split; [|split; reflexivity].
  intros pathname.
  destruct (tarname_tokens_ok pathname)
    as (front & last_part & first & rest & _ & _ & Htokens).
  eexists _, _. split; [exact Htokens|].
  rewrite split_tarname_unfold, Htokens. cbn [and_then].
  destruct (Nat.ltb_spec (length (recombine (front ++ [first]))) 4)
    as [Hshort|Hfull].
  - split; [|split]; [split; eauto | done | lia].
  - split; [|split]; [|lia|done].
    split; [by intros [e [=]] | lia].
Qed.

(** C6 as stated does not hold: the message of the error raised for
    "badname.zip", where one component was found, does not name the
    count. *)
Lemma split_tarname_error_without_count :
  ~ (forall pathname msg fileparts ext,
        split_tarname pathname = Raise (AutobuildError msg) ->
        tarname_tokens pathname = Ok (fileparts, ext) ->
        names_count msg (length (recombine fileparts))).
Proof.
  intros H.
  specialize (H "badname.zip" _ ["badname"] ".zip" eq_refl eq_refl).
  vm_compute in H. discriminate.
Qed.

(** C8, as the code has it.  When [split_tarname] returns, the components
    are exactly four, and the extension is either empty or starts with a
    dot: it is empty exactly when the last dash-token of the file name
    contains no dot. *)
Theorem split_tarname_result_shape (pathname dir : string)
    (fileparts : list string) (ext : string) :
  split_tarname pathname = Ok (dir, fileparts, ext) ->
  length fileparts = 4%nat
  /\ (ext = EmptyString \/ starts_with_dot ext)
  /\ (forall last_part,
        last (Py.split "-" (snd (Py.os_path_split pathname)))
        = Some last_part ->
        (ext = EmptyString
         <-> "."%char ∉ String.list_ascii_of_string last_part)).
Proof.
  rewrite split_tarname_unfold.
  destruct (tarname_tokens_ok pathname)
    as (front & last_part & first & rest & Hdash & Hdot & ->).
  cbn [and_then].
  destruct (Nat.ltb_spec (length (recombine (front ++ [first]))) 4)
    as [Hshort|Hfull]; [done|].
  intros [= <- <- <-]. split; [|split].
  - rewrite recombine_length in *.
    destruct (Nat.ltb_spec 4 (length (front ++ [first]))); lia.
  - destruct rest; [by left | right; by eexists].
  - intros last_part' Hlast. rewrite Hdash, last_snoc in Hlast.
    injection Hlast as <-.
    rewrite <- split_singleton, Hdot.
    destruct rest; simpl; split; (done || lia).
Qed.

Lemma split_tarname_result_shape_witness :
  length ["boost"; "1.39.0"; "darwin"; "20100222a"] = 4%nat
  /\ (".tar.bz2" = EmptyString \/ starts_with_dot ".tar.bz2").
Proof.
  pose proof (split_tarname_result_shape
                "/some/path/boost-1.39.0-darwin-20100222a.tar.bz2"
                "/some/path" ["boost"; "1.39.0"; "darwin"; "20100222a"]
                ".tar.bz2" eq_refl) as (Hlen & Hext & _).
  exact (conj Hlen Hext).
Defined.

(** C8 as stated does not hold: an archive name whose last dash-token has
    no dot is split into four components and the empty extension, which
    does not start with a dot. *)
Lemma split_tarname_extension_may_be_empty :
  ~ (forall pathname dir fileparts ext,
        split_tarname pathname = Ok (dir, fileparts, ext) ->
        length fileparts = 4%nat /\ starts_with_dot ext).
Proof.
  intros H.
  destruct (H "boost-1.39.0-darwin-20100222a" EmptyString
              ["boost"; "1.39.0"; "darwin"; "20100222a"] EmptyString eq_refl)
    as [_ [rest Hrest]].
  discriminate.
Qed.

(* ------------------------------------------------------------------ *)
(** ** More on detection *)

Section detection_frame.
Implicit Types (filename : string) (w : world) (head data magic : list byte).

(** The two ways detection can go. *)
Lemma detect_cases filename w :
  detect_archive_type filename w
  = match _archive_type_from_extension filename with
    | Some f_type => (Ok (Some f_type), w)
    | None => _archive_type_from_signature filename w
    end.
Proof.
  destruct (_archive_type_from_extension filename) as [t|] eqn:E.
  - by apply detect_by_extension.
  - apply detect_without_suffix. by apply extension_None.
Qed.

Lemma extension_values filename f_type :
  _archive_type_from_extension filename = Some f_type ->
  f_type ∈ ["gz"; "bz2"; "zip"; "zst"].
Proof.
  unfold _archive_type_from_extension.
  repeat case_match; intros [= <-]; rewrite !elem_of_cons; auto.
Qed.

Lemma match_signature_values head f_type :
  match_signature head _ARCHIVE_MAGIC_NUMBERS = Some f_type ->
  f_type ∈ ["gz"; "bz2"; "zip"; "zst"].
Proof.
  unfold _ARCHIVE_MAGIC_NUMBERS. simpl.
  repeat case_match; intros [= <-]; rewrite !elem_of_cons; auto.
Qed.

Lemma startswith_length head magic :
  Py.startswith head magic = true -> (length magic <= length head)%nat.
Proof.
  revert head. induction magic as [|m magic IH]; intros [|h head]; simpl;
    try done; try lia.
  intros [_ H]%andb_true_iff. apply IH in H. lia.
Qed.

(** Detection leaves the files and the open resources as they were. *)
Lemma detect_frame filename w :
  files (detect_archive_type filename w).2 = files w
  /\ opened (detect_archive_type filename w).2 = opened w.
Proof.
  rewrite detect_cases.
  destruct (_archive_type_from_extension filename); [done|].
  rewrite signature_run. by destruct (files w !! filename).
Qed.

End detection_frame.

(** X1.  Whatever the name and the content, a detection that returns gives
    [None] or one of the four identifiers gz, bz2, zip, zst. *)
Theorem detect_result_closed (filename : string) (w w' : world)
    (f_type : option string) :
  detect_archive_type filename w = (Ok f_type, w') ->
  f_type ∈ [None; Some "gz"; Some "bz2"; Some "zip"; Some "zst"].
Proof.
  rewrite detect_cases.
  destruct (_archive_type_from_extension filename) as [t|] eqn:E.
  - intros [= <- <-]. apply extension_values in E.
    rewrite !elem_of_cons, elem_of_nil in E. rewrite !elem_of_cons.
    destruct E as [->|[->|[->|[->|[]]]]];
      repeat (first [left; reflexivity | right]).
  - rewrite signature_run. destruct (files w !! filename) as [data|]; [|done].
    destruct (match_signature (take 4 data) _ARCHIVE_MAGIC_NUMBERS)
      as [t|] eqn:Em; intros [= <- <-]; [|rewrite !elem_of_cons; auto].
    apply match_signature_values in Em.
    rewrite !elem_of_cons, elem_of_nil in Em. rewrite !elem_of_cons.
    destruct Em as [->|[->|[->|[->|[]]]]];
      repeat (first [left; reflexivity | right]).
Qed.

Lemma detect_result_closed_witness :
  Some "gz" ∈ [None; Some "gz"; Some "bz2"; Some "zip"; Some "zst"].
Proof.
  apply (detect_result_closed "pkg.bin" example_world
           (after example_world []
              [EvOpen "pkg.bin"; EvRead "pkg.bin" 4; EvCloseFile "pkg.bin"])).
  vm_compute. reflexivity.
Defined.

(** X2.  Detection never changes what the files hold and never leaves a file
    open, whether it returns by suffix, returns by signature or raises
    because the file cannot be opened. *)
Theorem detect_leaves_nothing_open (filename : string) (w : world) :
  files (detect_archive_type filename w).2 = files w
  /\ opened (detect_archive_type filename w).2 = opened w
  /\ exists calls,
       log (detect_archive_type filename w).2 = log w ++ calls
       /\ (length calls <= 3)%nat.
Proof.
  destruct (detect_frame filename w) as [Hfiles Hopened].
  split; [exact Hfiles | split; [exact Hopened|]].
  rewrite detect_cases.
  destruct (_archive_type_from_extension filename).
  - exists []. split; [by rewrite app_nil_r | simpl; lia].
  - rewrite signature_run.
    destruct (files w !! filename); eexists; (split; [reflexivity | simpl; lia]).
Qed.

(** X3.  Detection by signature looks at the first four bytes only: two
    readable files without a recognized suffix whose first four bytes agree
    are detected alike. *)
Theorem detect_reads_four_bytes (filename1 filename2 : string)
    (data1 data2 : list byte) (w1 w2 : world) :
  no_recognized_suffix filename1 ->
  no_recognized_suffix filename2 ->
  files w1 !! filename1 = Some data1 ->
  files w2 !! filename2 = Some data2 ->
  take 4 data1 = take 4 data2 ->
  (detect_archive_type filename1 w1).1 = (detect_archive_type filename2 w2).1.
Proof.
  intros Hs1 Hs2 Hf1 Hf2 Hhead.
  rewrite !detect_without_suffix, !signature_run, Hf1, Hf2 by done.
  simpl. by rewrite Hhead.
Qed.

(** X4.  A readable file of fewer than three bytes under a name without a
    recognized suffix is never recognized: detection returns [None]. *)
Theorem detect_short_file (filename : string) (data : list byte) (w : world) :
  no_recognized_suffix filename ->
  files w !! filename = Some data ->
  (length data < 3)%nat ->
  (detect_archive_type filename w).1 = Ok None.
Proof.
  intros Hs Hf Hlen. rewrite detect_without_suffix, signature_run, Hf by done.
  cbn [fst]. f_equal.
  pose proof (match_signature_first (take 4 data) _ARCHIVE_MAGIC_NUMBERS)
    as Hfirst.
  destruct (match_signature (take 4 data) _ARCHIVE_MAGIC_NUMBERS) as [t|];
    [|done].
  destruct Hfirst as (i & magic & Hi & Hstart & _).
  apply startswith_length in Hstart. rewrite length_take in Hstart.
  assert (length magic < 3)%nat as Hmagic by lia. clear Hstart.
  apply list_elem_of_lookup_2 in Hi. unfold _ARCHIVE_MAGIC_NUMBERS in Hi.
  rewrite !elem_of_cons, elem_of_nil in Hi.
  destruct Hi as [[= -> _]|[[= -> _]|[[= -> _]|[[= -> _]|[]]]]];
    simpl in Hmagic; lia.
Qed.

Lemma detect_reads_four_bytes_witness :
  (detect_archive_type "pkg.bin" example_world).1
  = (detect_archive_type "other.bin" example_world2).1.
Proof.
  apply (detect_reads_four_bytes "pkg.bin" "other.bin"
           [x1f; x8b; x08; x00; x00] [x1f; x8b; x08; x00; xff; xff]).
  - repeat split; reflexivity.
  - repeat split; reflexivity.
  - vm_compute. reflexivity.
  - vm_compute. reflexivity.
  - reflexivity.
Defined.

Lemma detect_short_file_witness :
  (detect_archive_type "empty.bin" example_world).1 = Ok None.
Proof.
  apply (detect_short_file "empty.bin" []).
  - repeat split; reflexivity.
  - vm_compute. reflexivity.
  - simpl. lia.
Defined.

(* ------------------------------------------------------------------ *)
(** ** More on suffixes *)

Section suffix_facts.
Implicit Types s a b suffix : string.

(** Two suffixes of one string: one of them ends the other. *)
Lemma endswith_comparable a b suffix1 suffix2 :
  a +:+ suffix1 = b +:+ suffix2 ->
  Py.endswith suffix1 suffix2 = true \/ Py.endswith suffix2 suffix1 = true.
Proof.
  revert b. induction a as [|c a IH]; intros b Heq.
  - left. change (suffix1 = b +:+ suffix2) in Heq. rewrite Heq.
    apply endswith_app.
  - destruct b as [|c' b].
    + right. change (String c a +:+ suffix1 = suffix2) in Heq.
      rewrite <- Heq. apply (endswith_app (String c a)).
    + rewrite !string_app_cons in Heq. injection Heq as _ Heq.
      by apply (IH b).
Qed.

Lemma endswith_other stem suffix1 suffix2 :
  Py.endswith suffix1 suffix2 = false ->
  Py.endswith suffix2 suffix1 = false ->
  Py.endswith (stem +:+ suffix1) suffix2 = false.
Proof.
  intros H12 H21.
  destruct (Py.endswith (stem +:+ suffix1) suffix2) eqn:E; [|done].
  apply endswith_inv in E as [b E].
  destruct (endswith_comparable _ _ _ _ E); congruence.
Qed.

End suffix_facts.

(** X5.  The suffix test is case-sensitive and wants the ".tar." part: a name
    that ends in ".ZIP", ".TAR.GZ", ".TAR.BZ2", ".TAR.ZST", ".tgz", ".tbz2"
    or ".tar" is not recognized by its suffix, so that detection goes on to
    open and read the file. *)
Theorem unrecognized_suffixes (stem suffix : string) (w : world) :
  suffix ∈ [".ZIP"; ".TAR.GZ"; ".TAR.BZ2"; ".TAR.ZST";
            ".tgz"; ".tbz2"; ".tar"] ->
  _archive_type_from_extension (stem +:+ suffix) = None
  /\ detect_archive_type (stem +:+ suffix) w
     = _archive_type_from_signature (stem +:+ suffix) w.
Proof.
  intros Hin.
  assert (no_recognized_suffix (stem +:+ suffix)) as Hnone.
  { rewrite !elem_of_cons, elem_of_nil in Hin.
    destruct Hin as [->|[->|[->|[->|[->|[->|[->|[]]]]]]]];
      repeat split; by apply endswith_other. }
  split; [by apply extension_None | by apply detect_without_suffix].
Qed.

Lemma unrecognized_suffixes_witness :
  _archive_type_from_extension "PKG.ZIP" = None
  /\ detect_archive_type "PKG.ZIP" example_world
     = _archive_type_from_signature "PKG.ZIP" example_world.
Proof.
  apply (unrecognized_suffixes "PKG" ".ZIP" example_world).
  rewrite elem_of_cons. by left.
Defined.

(* ------------------------------------------------------------------ *)
(** ** Opening and closing *)

Section open_close.
Variable L : library.
Implicit Types (filename : string) (w : world).

(** All of [open_archive], in terms of its parts. *)
Lemma open_archive_run filename w :
  open_archive L filename w
  = match detect_archive_type filename w with
    | (Raise e, w0) => (Raise e, w0)
    | (Ok f_type, w0) =>
        if py_eq f_type ArchiveType.ZST then
          match ZstdTarFile_init L filename "r" 4 w0 with
          | (Ok z, w1) => (Ok (ArZstdTar z), w1)
          | (Raise e, w1) => (Raise e, w1)
          end
        else if py_eq f_type ArchiveType.ZIP then
          zipfile_ZipFile L filename "r" w0
        else tarfile_open L filename "r" w0
    end.
Proof.
  unfold open_archive, Run.bind at 1.
  destruct (detect_archive_type filename w) as [[f_type|e] w0]; [|done].
  destruct (py_eq f_type ArchiveType.ZST);
    [|by destruct (py_eq f_type ArchiveType.ZIP)].
  unfold Run.bind, Run.ret.
  by destruct (ZstdTarFile_init L filename "r" 4 w0) as [[z|e] w1].
Qed.

(** The first library call of [__init__] carries the options. *)
Lemma init_log name mode level w :
  exists rest,
    log (ZstdTarFile_init L name mode level w).2
    = log w ++ EvZstdFile name mode (zstdoption L mode level) :: rest.
Proof.
  pose proof (init_run L name mode level w) as Hrun. cbv zeta in Hrun.
  rewrite Hrun.
  destruct (ZstdFile_new L name mode); [by eexists|].
  destruct (TarFile_init L name mode); [|by eexists].
  destruct (ZstdFile_close L name); by eexists.
Qed.

(** Dropping a resource that was just put in front gives back the list. *)
Lemma remove_one_head (r : resource) (l : list resource) :
  Run.remove_one r (r :: l) = l.
Proof. simpl. by rewrite decide_True. Qed.

Lemma zstdoption_read mode level :
  zstdoption L mode level = None <-> mode = "r" \/ mode = "rb".
Proof.
  unfold zstdoption.
  destruct (String.eqb_spec mode "r") as [->|Hr]; simpl;
    [split; auto|].
  destruct (String.eqb_spec mode "rb") as [->|Hrb]; simpl;
    [split; auto|].
  split; [done | by intros [?|?]].
Qed.

End open_close.

(** X6.  Opening a zstd archive and closing it again gives back every
    resource: when [open_archive] returns a [ZstdTarFile] and the two close
    calls of the libraries return, [close] returns and the open resources
    are those from before the archive was opened. *)
Theorem open_close_zstd (L : library) (filename : string) (z : ZstdTarFile)
    (w w1 : world) :
  open_archive L filename w = (Ok (ArZstdTar z), w1) ->
  TarFile_close L filename = None ->
  ZstdFile_close L filename = None ->
  z = {| zstd_file := filename; tar_mode := "r" |}
  /\ opened w1 = RTar filename :: RZstd filename :: opened w
  /\ (ZstdTarFile_close L z w1).1 = Ok tt
  /\ opened (ZstdTarFile_close L z w1).2 = opened w
  /\ files (ZstdTarFile_close L z w1).2 = files w.
Proof.
  intros Hopen Htar Hzstd. rewrite open_archive_run in Hopen.
  destruct (detect_frame filename w) as [Hfiles Hopened].
  destruct (detect_archive_type filename w) as [[f_type|e] w0]; [|done].
  simpl in Hfiles, Hopened.
  destruct (py_eq f_type ArchiveType.ZST).
  - pose proof (init_run L filename "r" 4 w0) as Hrun. cbv zeta in Hrun.
    rewrite Hrun in Hopen. clear Hrun.
    destruct (ZstdFile_new L filename "r"); [done|].
    destruct (TarFile_init L filename "r");
      [by destruct (ZstdFile_close L filename)|].
    injection Hopen as <- <-.
    rewrite close_run. cbv zeta. cbn [zstd_file]. rewrite Htar, Hzstd.
    unfold after. cbn [fst snd opened files].
    rewrite !remove_one_head. by rewrite Hfiles, Hopened.
  - destruct (py_eq f_type ArchiveType.ZIP).
    + rewrite zipfile_run in Hopen.
      by destruct (ZipFile_new L filename "r").
    + rewrite tarfile_open_run in Hopen.
      by destruct (tarfile_open_result L filename "r").
Qed.

Lemma open_close_zstd_witness :
  opened (ZstdTarFile_close working_library
            {| zstd_file := "pkg.tar.zst"; tar_mode := "r" |}
            (after example_world [RTar "pkg.tar.zst"; RZstd "pkg.tar.zst"]
               [EvZstdFile "pkg.tar.zst" "r" None;
                EvTarInit "pkg.tar.zst" "r"])).2
  = [].
Proof.
  refine (proj1 (proj2 (proj2 (proj2
            (open_close_zstd working_library "pkg.tar.zst" _ example_world _
               _ eq_refl eq_refl))))).
  vm_compute. reflexivity.
Defined.

(** X7.  A failing [open_archive] leaves nothing open: whichever step
    raised -- reading the signature, the zstd stream, the tar reader around
    it, the zip reader or [tarfile.open] -- the open resources and the files
    are those from before the call, provided the stream's [close] returns
    when it is called. *)
Theorem open_archive_failure_leaks_nothing (L : library) (filename : string)
    (e : exn) (w w' : world) :
  open_archive L filename w = (Raise e, w') ->
  ZstdFile_close L filename = None ->
  opened w' = opened w /\ files w' = files w.
Proof.
  intros Hopen Hzstd. rewrite open_archive_run in Hopen.
  destruct (detect_frame filename w) as [Hfiles Hopened].
  destruct (detect_archive_type filename w) as [[f_type|e0] w0];
    simpl in Hfiles, Hopened; [|by injection Hopen as _ <-].
  destruct (py_eq f_type ArchiveType.ZST).
  - pose proof (init_run L filename "r" 4 w0) as Hrun. cbv zeta in Hrun.
    rewrite Hrun, Hzstd in Hopen. clear Hrun.
    destruct (ZstdFile_new L filename "r");
      [by injection Hopen as _ <-|].
    destruct (TarFile_init L filename "r"); [by injection Hopen as _ <-|done].
  - destruct (py_eq f_type ArchiveType.ZIP).
    + rewrite zipfile_run in Hopen. by injection Hopen as _ <-.
    + rewrite tarfile_open_run in Hopen. by injection Hopen as _ <-.
Qed.

Lemma open_archive_failure_witness :
  opened (open_archive tar_failing_library "pkg.tar.zst" example_world).2
  = opened example_world
  /\ files (open_archive tar_failing_library "pkg.tar.zst" example_world).2
     = files example_world.
Proof.
  apply (open_archive_failure_leaks_nothing tar_failing_library "pkg.tar.zst"
           (LibraryError "tarfile.ReadError")).
  - vm_compute. reflexivity.
  - reflexivity.
Defined.

(** X8.  Only the modes "r" and "rb" open the zstd stream without options.
    Under any other mode [ZstdTarFile.__init__] opens it with the given
    compression level, as many workers as there are CPUs and the checksum
    flag set. *)
Theorem zstd_options_by_mode (L : library) (name mode : string) (level : Z)
    (w : world) :
  (zstdoption L mode level = None <-> mode = "r" \/ mode = "rb")
  /\ (mode <> "r" -> mode <> "rb" ->
      exists rest,
        log (ZstdTarFile_init L name mode level w).2
        = log w
          ++ EvZstdFile name mode
               (Some {| compressionLevel := level;
                        nbWorkers := cpu_count L;
                        checksumFlag := 1 |}) :: rest)
  /\ (mode = "r" \/ mode = "rb" ->
      exists rest,
        log (ZstdTarFile_init L name mode level w).2
        = log w ++ EvZstdFile name mode None :: rest).
Proof.
  split; [apply zstdoption_read|].
  destruct (init_log L name mode level w) as [rest Hlog].
  split.
  - intros Hr Hrb. exists rest. rewrite Hlog. do 3 f_equal.
    unfold zstdoption.
    destruct (String.eqb_spec mode "r"); [done|].
    by destruct (String.eqb_spec mode "rb").
  - intros Hmode. apply (zstdoption_read L mode level) in Hmode.
    exists rest. by rewrite Hlog, Hmode.
Qed.

(* ------------------------------------------------------------------ *)
(** ** [split] and [join] *)

Section split_join.
Implicit Types (s a b c x : string) (sep ch : ascii) (l : list string).

Lemma string_app_assoc a b c : (a +:+ b) +:+ c = a +:+ (b +:+ c).
Proof.
  induction a as [|ch a IH]; [done|].
  rewrite !string_app_cons. by rewrite IH.
Qed.

Lemma string_app_nil_r a : a +:+ EmptyString = a.
Proof.
  induction a as [|ch a IH]; [done|]. rewrite string_app_cons. by rewrite IH.
Qed.

Lemma join_cons_cons (glue : string) x y l :
  Py.join glue (x :: y :: l) = x +:+ glue +:+ Py.join glue (y :: l).
Proof. reflexivity. Qed.

(** Joining the pieces of a split with the separator gives the string
    back. *)
Lemma join_split sep s : Py.join (String sep EmptyString) (Py.split sep s) = s.
Proof.
  induction s as [|ch s IH]; [done|]. simpl.
  destruct (split_cons sep s) as (x & xs & E). rewrite E in IH |- *.
  destruct (Ascii.eqb_spec ch sep) as [->|Hne].
  - rewrite join_cons_cons, IH. reflexivity.
  - destruct xs as [|y xs].
    + simpl in IH |- *. by rewrite IH.
    + rewrite join_cons_cons in IH |- *. rewrite string_app_cons. by rewrite IH.
Qed.

Lemma join_app (glue : string) l1 l2 :
  l1 <> [] -> l2 <> [] ->
  Py.join glue (l1 ++ l2)
  = Py.join glue l1 +:+ glue +:+ Py.join glue l2.
Proof.
  intros H1 H2. induction l1 as [|x l1 IH]; [done|].
  destruct l1 as [|y l1].
  - destruct l2 as [|z l2]; [done|]. reflexivity.
  - change ((x :: y :: l1) ++ l2) with (x :: y :: (l1 ++ l2)).
    rewrite !join_cons_cons.
    change (y :: l1 ++ l2) with ((y :: l1) ++ l2). rewrite IH by done.
    by rewrite !string_app_assoc.
Qed.

(** Appending to the joined string is appending to its last piece. *)
Lemma join_snoc_app (glue : string) l x c :
  Py.join glue (l ++ [x]) +:+ c = Py.join glue (l ++ [x +:+ c]).
Proof.
  destruct l as [|y l]; [done|].
  rewrite !(join_app glue (y :: l)) by done.
  by rewrite !string_app_assoc.
Qed.

(** No piece of a split contains the separator. *)
Lemma split_piece_no_sep sep s x :
  x ∈ Py.split sep s -> sep ∉ String.list_ascii_of_string x.
Proof.
  revert x. induction s as [|ch s IH]; intros x; simpl.
  - intros ->%list_elem_of_singleton. apply not_elem_of_nil.
  - destruct (split_cons sep s) as (y & ys & E). rewrite E in IH |- *.
    destruct (Ascii.eqb_spec ch sep) as [->|Hne].
    + intros [->|Hin]%elem_of_cons; [apply not_elem_of_nil | by apply IH].
    + intros [->|Hin]%elem_of_cons.
      * simpl. apply not_elem_of_cons. split; [congruence|].
        apply IH, elem_of_cons. by left.
      * apply IH, elem_of_cons. by right.
Qed.

(** The characters of a piece are characters of the string. *)
Lemma split_piece_chars sep s x ch :
  x ∈ Py.split sep s ->
  ch ∈ String.list_ascii_of_string x -> ch ∈ String.list_ascii_of_string s.
Proof.
  revert x. induction s as [|c0 s IH]; intros x; simpl.
  - by intros ->%list_elem_of_singleton.
  - destruct (split_cons sep s) as (y & ys & E). rewrite E in IH |- *.
    destruct (Ascii.eqb_spec c0 sep) as [->|Hne].
    + intros [->|Hin]%elem_of_cons Hch.
      * by apply elem_of_nil in Hch.
      * apply elem_of_cons. right. by apply (IH x).
    + intros [->|Hin]%elem_of_cons Hch.
      * simpl in Hch. apply elem_of_cons in Hch as [->|Hch];
          apply elem_of_cons; [by left | right].
        apply (IH y); [apply elem_of_cons; by left | done].
      * apply elem_of_cons. right. apply (IH x); [|done].
        apply elem_of_cons. by right.
Qed.

(** The characters of a join come from the glue or from a piece. *)
Lemma join_chars (glue : string) l ch :
  ch ∈ String.list_ascii_of_string (Py.join glue l) ->
  ch ∈ String.list_ascii_of_string glue
  \/ exists x, x ∈ l /\ ch ∈ String.list_ascii_of_string x.
Proof.
  induction l as [|x l IH]; simpl.
  - by intros ?%elem_of_nil.
  - destruct l as [|y l].
    + intros Hch. right. exists x. split; [apply elem_of_cons; by left|done].
    + rewrite !list_ascii_app, !elem_of_app.
      intros [Hch|[Hch|Hch]].
      * right. exists x. split; [apply elem_of_cons; by left|done].
      * by left.
      * destruct (IH Hch) as [?|(z & Hz & Hzc)]; [by left|].
        right. exists z. split; [apply elem_of_cons; by right|done].
Qed.

End split_join.

Section split_tarname_more.
Implicit Types (pathname ext : string) (fileparts : list string).

(** Recombination does not change what the tokens join to. *)
Lemma join_recombine fileparts :
  Py.join "-" (recombine fileparts) = Py.join "-" fileparts.
Proof.
  unfold recombine. destruct (Nat.ltb_spec 4 (length fileparts)); [|done].
  destruct (interior_decompose fileparts) as (x & mid & y & z & -> & Hlen);
    [lia|].
  rewrite getslice_interior, setslice_interior.
  assert (mid <> []) as Hmid by (destruct mid; simpl in *; [lia | done]).
  change (x :: mid ++ [y; z]) with ([x] ++ (mid ++ [y; z])).
  rewrite (join_app "-" [x]), (join_app "-" mid) by (done || by destruct mid).
  reflexivity.
Qed.

(** The components a successful split returns, against the raw tokens. *)
Lemma split_tarname_inv pathname dir fileparts ext :
  split_tarname pathname = Ok (dir, fileparts, ext) ->
  exists front last_part first rest,
    Py.split "-" (snd (Py.os_path_split pathname)) = front ++ [last_part]
    /\ Py.split "." last_part = first :: rest
    /\ dir = fst (Py.os_path_split pathname)
    /\ fileparts = recombine (front ++ [first])
    /\ ext = Py.join "." (EmptyString :: rest).
Proof.
  rewrite split_tarname_unfold.
  destruct (tarname_tokens_ok pathname)
    as (front & last_part & first & rest & Hdash & Hdot & ->).
  cbn [and_then].
  destruct (length (recombine (front ++ [first])) <? 4)%nat; [done|].
  intros [= <- <- <-]. by exists front, last_part, first, rest.
Qed.

(** The outer components of a recombined list are tokens of the list, and
    the last one is its last token. *)
Lemma recombine_outer fileparts (a v y z : string) :
  recombine fileparts = [a; v; y; z] ->
  a ∈ fileparts /\ y ∈ fileparts /\ last fileparts = Some z.
Proof.
  unfold recombine. destruct (Nat.ltb_spec 4 (length fileparts)).
  - destruct (interior_decompose fileparts) as (x & mid & y' & z' & -> & _);
      [lia|].
    rewrite getslice_interior, setslice_interior. intros [= -> _ -> ->].
    split; [apply elem_of_cons; by left|]. split.
    + apply elem_of_cons. right. apply elem_of_app. right.
      apply elem_of_cons. by left.
    + replace (a :: mid ++ [y; z]) with ((a :: mid ++ [y]) ++ [z])
        by (simpl; by rewrite <- app_assoc).
      apply last_snoc.
  - intros ->. split; [apply elem_of_cons; by left|]. split; [|done].
    rewrite !elem_of_cons. auto.
Qed.

End split_tarname_more.

(** X9.  A successful split loses nothing of the file name: the components
    joined with dashes, followed by the extension, are the file name again,
    and the directory is the head of [os.path.split]. *)
Theorem split_tarname_reassembles (pathname dir : string)
    (fileparts : list string) (ext : string) :
  split_tarname pathname = Ok (dir, fileparts, ext) ->
  Py.join "-" fileparts +:+ ext = snd (Py.os_path_split pathname)
  /\ dir = fst (Py.os_path_split pathname).
Proof.
  intros (front & last_part & first & rest & Hdash & Hdot & -> & -> & ->)
    %split_tarname_inv.
  split; [|done].
  rewrite join_recombine, join_snoc_app.
  assert (first +:+ Py.join "." (EmptyString :: rest) = last_part) as ->.
  { rewrite <- (join_split "." last_part), Hdot.
    destruct rest; [apply string_app_nil_r | reflexivity]. }
  rewrite <- Hdash. apply (join_split "-").
Qed.

Lemma split_tarname_reassembles_witness :
  Py.join "-" ["mypkg"; "2009-08-30"; "darwin"; "20100222a"] +:+ ".tar.gz"
  = snd (Py.os_path_split "/cache/mypkg-2009-08-30-darwin-20100222a.tar.gz")
  /\ "/cache"
     = fst (Py.os_path_split "/cache/mypkg-2009-08-30-darwin-20100222a.tar.gz").
Proof.
  apply (split_tarname_reassembles
           "/cache/mypkg-2009-08-30-darwin-20100222a.tar.gz").
  reflexivity.
Defined.

(** X10.  In a successful split only the version can contain a dash: the
    package name, the platform and the build qualifier contain none, the
    qualifier contains no dot either, and the extension contains no dash. *)
Theorem split_tarname_separators (pathname dir name version platform
    qualifier ext : string) :
  split_tarname pathname = Ok (dir, [name; version; platform; qualifier], ext) ->
  ("-"%char ∉ String.list_ascii_of_string name)
  /\ ("-"%char ∉ String.list_ascii_of_string platform)
  /\ ("-"%char ∉ String.list_ascii_of_string qualifier)
  /\ ("."%char ∉ String.list_ascii_of_string qualifier)
  /\ ("-"%char ∉ String.list_ascii_of_string ext).
Proof.
  intros (front & last_part & first & rest & Hdash & Hdot & _ & Hparts & ->)
    %split_tarname_inv.
  symmetry in Hparts. apply recombine_outer in Hparts as (Hname & Hplat & Hq).
  rewrite last_snoc in Hq. injection Hq as ->.
  assert ("-"%char ∉ String.list_ascii_of_string last_part) as Hlast.
  { apply (split_piece_no_sep _ (snd (Py.os_path_split pathname))).
    rewrite Hdash. apply elem_of_app. right. apply elem_of_cons. by left. }
  assert (forall x, x ∈ Py.split "." last_part ->
                    "-"%char ∉ String.list_ascii_of_string x) as Hpieces.
  { intros x Hx Hc. apply Hlast. by apply (split_piece_chars "." _ x). }
  assert (forall x, x ∈ front ++ [qualifier] ->
                    "-"%char ∉ String.list_ascii_of_string x) as Htokens.
  { intros x [Hx|Hx%list_elem_of_singleton]%elem_of_app.
    - apply (split_piece_no_sep _ (snd (Py.os_path_split pathname))).
      rewrite Hdash. apply elem_of_app. by left.
    - subst x. apply Hpieces. rewrite Hdot. apply elem_of_cons. by left. }
  split; [by apply Htokens|]. split; [by apply Htokens|].
  split; [apply Htokens, elem_of_app; right; by apply list_elem_of_singleton|].
  split.
  - apply (split_piece_no_sep _ last_part). rewrite Hdot.
    apply elem_of_cons. by left.
  - intros [Hglue|(x & Hx & Hc)]%join_chars.
    + simpl in Hglue. apply list_elem_of_singleton in Hglue. discriminate.
    + apply elem_of_cons in Hx as [->|Hx]; [by apply elem_of_nil in Hc|].
      apply (Hpieces x); [|done]. rewrite Hdot. apply elem_of_cons. by right.
Qed.

Lemma split_tarname_separators_witness :
  ("-"%char ∉ String.list_ascii_of_string "mypkg")
  /\ ("-"%char ∉ String.list_ascii_of_string "darwin")
  /\ ("-"%char ∉ String.list_ascii_of_string "20100222a")
  /\ ("."%char ∉ String.list_ascii_of_string "20100222a")
  /\ ("-"%char ∉ String.list_ascii_of_string ".tar.gz").
Proof.
  apply (split_tarname_separators "mypkg-2009-08-30-darwin-20100222a.tar.gz"
           "" "mypkg" "2009-08-30" "darwin" "20100222a" ".tar.gz").
  reflexivity.
Defined.

(* ------------------------------------------------------------------ *)
(** ** Platform, environment and build id *)

Section platform_facts.
Implicit Types (environ : gmap string string) (sys_platform : string).

Lemma platform_map_lookup sys_platform :
  platform_map !! sys_platform
  = if decide (sys_platform = "darwin") then Some PLATFORM_DARWIN
    else if decide (sys_platform = "linux2") then Some PLATFORM_LINUX
    else if decide (sys_platform = "win32") then Some PLATFORM_WINDOWS
    else if decide (sys_platform = "cygwin") then Some PLATFORM_WINDOWS
    else if decide (sys_platform = "solaris") then Some PLATFORM_SOLARIS
    else None.
Proof.
  unfold platform_map.
  repeat (case_decide;
          [subst; by rewrite lookup_insert_eq
          | rewrite lookup_insert_ne by congruence]).
  apply lookup_empty.
Qed.

Lemma dict_get_Some {V} (d : gmap string V) key (dflt v : V) :
  d !! key = Some v -> dict_get d key dflt = v.
Proof. unfold dict_get. by intros ->. Qed.

Lemma dict_get_None {V} (d : gmap string V) key (dflt : V) :
  d !! key = None -> dict_get d key dflt = dflt.
Proof. unfold dict_get. by intros ->. Qed.

End platform_facts.

(** X11.  [get_current_platform] returns the override variable unchecked
    when it is set.  Without it the answer is one of the four platforms or
    "unknown", and it is "unknown" exactly when [sys.platform] is none of
    darwin, linux2, win32, cygwin, solaris. *)
Theorem current_platform_values (environ : gmap string string)
    (sys_platform : string) :
  (forall v, environ !! "AUTOBUILD_PLATFORM_OVERRIDE" = Some v ->
             get_current_platform environ sys_platform = v)
  /\ (environ !! "AUTOBUILD_PLATFORM_OVERRIDE" = None ->
      (get_current_platform environ sys_platform ∈ PLATFORMS
       \/ get_current_platform environ sys_platform = PLATFORM_UNKNOWN)
      /\ (get_current_platform environ sys_platform = PLATFORM_UNKNOWN
          <-> sys_platform ∉
                ["darwin"; "linux2"; "win32"; "cygwin"; "solaris"])).
Proof.
  unfold get_current_platform. split.
  - intros v Hv. by apply dict_get_Some.
  - intros Hnone. rewrite (dict_get_None _ _ _ Hnone).
    unfold dict_get. rewrite platform_map_lookup.
    unfold PLATFORMS. rewrite !not_elem_of_cons, !elem_of_cons.
    repeat case_decide; subst.
    6: { split; [by right|].
         split; [intros _; repeat split; (done || apply not_elem_of_nil)|done]. }
    all: split; [left; auto 6 | split; [done | by intros (?&?&?&?&?&?)]].
Qed.

(** X12.  [get_autobuild_environment] changes no variable other than
    AUTOBUILD; an AUTOBUILD that is already set is kept, so that the
    environment comes back as it was; otherwise AUTOBUILD becomes the
    resolved path of the executable, with ".cmd" appended when the platform
    is windows.  Building the environment from its own result changes
    nothing. *)
Theorem autobuild_environment (resolve : string -> string)
    (environ : gmap string string) (sys_platform argv0 : string) :
  let environ' :=
    get_autobuild_environment resolve environ sys_platform argv0 in
  (forall key, key <> "AUTOBUILD" -> environ' !! key = environ !! key)
  /\ (forall v, environ !! "AUTOBUILD" = Some v -> environ' = environ)
  /\ (environ !! "AUTOBUILD" = None ->
      environ' !! "AUTOBUILD"
      = Some (resolve
                (if decide (get_current_platform environ sys_platform
                            = "windows")
                 then argv0 +:+ ".cmd" else argv0)))
  /\ get_autobuild_environment resolve environ' sys_platform argv0 = environ'.
Proof.
  intros environ'. subst environ'. unfold get_autobuild_environment.
  split; [|split; [|split]].
  - intros key Hkey. by rewrite lookup_insert_ne.
  - intros v Hv. rewrite (dict_get_Some _ _ _ _ Hv). by apply insert_id.
  - intros Hnone. rewrite (dict_get_None _ _ _ Hnone), lookup_insert_eq.
    unfold get_autobuild_executable_path, PLATFORM_WINDOWS.
    by destruct (String.eqb_spec (get_current_platform environ sys_platform)
                   "windows"); case_decide.
  - rewrite (dict_get_Some (<["AUTOBUILD":=_]> environ) "AUTOBUILD" _ _
               (lookup_insert_eq _ _ _)).
    apply insert_insert_eq.
Qed.

(** X13.  [establish_build_id] takes the id from a non-empty argument,
    else from the variable AUTOBUILD_BUILD_ID, else from the date, and warns
    only in the last case; an empty argument counts as no argument.  In every
    case the id returned is stored in AUTOBUILD_BUILD_ID and no other
    variable changes. *)
Theorem build_id_precedence (today : string) (build_id_arg : option string)
    (environ : gmap string string) :
  let outcome := establish_build_id today build_id_arg environ in
  let build_id := outcome.1.1 in
  let absent := build_id_arg = None \/ build_id_arg = Some EmptyString in
  outcome.1.2 !! "AUTOBUILD_BUILD_ID" = Some build_id
  /\ (forall key, key <> "AUTOBUILD_BUILD_ID" ->
                  outcome.1.2 !! key = environ !! key)
  /\ (forall arg, build_id_arg = Some arg -> arg <> EmptyString ->
                  build_id = arg /\ outcome.2 = [])
  /\ (forall v, absent -> environ !! "AUTOBUILD_BUILD_ID" = Some v ->
                build_id = v /\ outcome.2 = [])
  /\ (absent -> environ !! "AUTOBUILD_BUILD_ID" = None ->
      build_id = today /\ outcome.2 = [build_id_warning today]).
Proof.
  intros outcome build_id absent. subst outcome build_id absent.
  unfold establish_build_id.
  destruct build_id_arg as [[|c arg]|];
    destruct (environ !! "AUTOBUILD_BUILD_ID") as [v|] eqn:E; simpl;
    rewrite lookup_insert_eq;
    (split; [done|]);
    (split; [by intros key Hkey; rewrite lookup_insert_ne|]);
    repeat split; try done; try congruence;
    intros; try congruence; intuition congruence.
Qed.

(** X14.  Once [establish_build_id] has run, a later call without an
    argument -- on whatever day -- returns the same id, leaves the
    environment as it is and does not warn. *)
Theorem build_id_stable (today today' : string)
    (build_id_arg build_id_arg' : option string)
    (environ : gmap string string) :
  build_id_arg' = None \/ build_id_arg' = Some EmptyString ->
  let outcome := establish_build_id today build_id_arg environ in
  establish_build_id today' build_id_arg' outcome.1.2
  = (outcome.1.1, outcome.1.2, []).
Proof.
  intros Habsent outcome. subst outcome.
  assert ((if truthy build_id_arg' then build_id_arg' else None) = None)
    as Hfalsy by (destruct Habsent as [->| ->]; reflexivity).
  unfold establish_build_id at 1. rewrite Hfalsy.
  unfold establish_build_id.
  destruct (if truthy build_id_arg then build_id_arg else None) as [arg|];
    [|destruct (environ !! "AUTOBUILD_BUILD_ID") as [v|]];
    cbn [fst snd]; rewrite lookup_insert_eq; by rewrite insert_insert_eq.
Qed.

Lemma build_id_stable_witness :
  establish_build_id "20240102" None
    (establish_build_id "20240101" None ∅).1.2
  = ("20240101", {[ "AUTOBUILD_BUILD_ID" := "20240101" ]}, []).
Proof.
  refine (eq_trans
            (build_id_stable "20240101" "20240102" None None ∅ (or_introl eq_refl))
            _).
  vm_compute. reflexivity.
Defined.

(* ------------------------------------------------------------------ *)
(** ** [find_executable] *)

Section first_some_facts.
Context {A B : Type}.
Implicit Types (body : A -> option B) (l : list A).

(** The loop returns what the body returns at the first element where it
    returns. *)
Lemma first_some_Some body l y :
  first_some body l = Some y
  <-> exists i x,
        l !! i = Some x /\ body x = Some y
        /\ forall j x', (j < i)%nat -> l !! j = Some x' -> body x' = None.
Proof.
  induction l as [|x l IH]; simpl.
  - split; [done | by intros (i & x & Hi & _)].
  - destruct (body x) as [y'|] eqn:Hx.
    + split.
      * intros [= ->]. exists 0%nat, x. repeat split; [done|]. intros; lia.
      * intros ([|i] & x' & Hi & Hy & Hbefore); simpl in Hi.
        -- injection Hi as <-. congruence.
        -- specialize (Hbefore 0%nat x ltac:(lia) eq_refl). congruence.
    + rewrite IH. split.
      * intros (i & x' & Hi & Hy & Hbefore). exists (S i), x'.
        repeat split; [done..|]. intros [|j] x'' Hj Hl; simpl in Hl.
        -- by injection Hl as <-.
        -- apply (Hbefore j); [lia | done].
      * intros ([|i] & x' & Hi & Hy & Hbefore); simpl in Hi.
        -- injection Hi as <-. congruence.
        -- exists i, x'. repeat split; [done..|]. intros j x'' Hj Hl.
           apply (Hbefore (S j)); [lia | done].
Qed.

Lemma first_some_None body l :
  first_some body l = None <-> forall x, x ∈ l -> body x = None.
Proof.
  induction l as [|x l IH]; simpl.
  - split; [by intros _ x ?%elem_of_nil | done].
  - destruct (body x) as [y|] eqn:Hx.
    + split; [done|]. intros H. rewrite (H x) in Hx; [done|].
      apply elem_of_cons. by left.
    + rewrite IH. split.
      * intros H x' [->|Hin]%elem_of_cons; [done | by apply H].
      * intros H x' Hin. apply H, elem_of_cons. by right.
Qed.

End first_some_facts.

Lemma head_None_nil {A} (l : list A) : head l = None <-> l = [].
Proof. by destruct l. Qed.

Lemma os_path_join_empty (name : string) : os_path_join "" name = name.
Proof. unfold os_path_join. by destruct (String.prefix "/" name). Qed.

(** X15.  [find_executable] ranks the names before the directories: what it
    returns is the first match of the first name that has a match in any
    directory of PATH under any of the tried extensions.  For that name it
    is the first directory with a match, and in that directory the first
    extension, the bare name coming last. *)
Theorem find_executable_priority (glob : string -> list string)
    (environ : gmap string string) (sys_platform : string)
    (names : list string) (exts : option (list string)) (found : string) :
  find_executable glob environ sys_platform (inr names) exts = Some found ->
  exists i e k p n ext,
    names !! i = Some e
    /\ path_dirs environ !! k = Some p
    /\ tried_exts sys_platform exts !! n = Some ext
    /\ head (glob (os_path_join p (e +:+ ext))) = Some found
    /\ (forall j e' p' ext',
          (j < i)%nat -> names !! j = Some e' ->
          p' ∈ path_dirs environ -> ext' ∈ tried_exts sys_platform exts ->
          glob (os_path_join p' (e' +:+ ext')) = [])
    /\ (forall j p' ext',
          (j < k)%nat -> path_dirs environ !! j = Some p' ->
          ext' ∈ tried_exts sys_platform exts ->
          glob (os_path_join p' (e +:+ ext')) = [])
    /\ (forall j ext',
          (j < n)%nat -> tried_exts sys_platform exts !! j = Some ext' ->
          glob (os_path_join p (e +:+ ext')) = []).
Proof.
  unfold find_executable.
  intros (i & e & Hi & (k & p & Hk & (n & ext & Hn & Hfound & Hexts)
                          %first_some_Some & Hdirs)%first_some_Some & Hnames)
    %first_some_Some.
  exists i, e, k, p, n, ext. repeat split; try done.
  - intros j e' p' ext' Hj He' Hp' Hext'.
    specialize (Hnames j e' Hj He').
    rewrite first_some_None in Hnames. specialize (Hnames p' Hp').
    rewrite first_some_None in Hnames. by apply head_None_nil, Hnames.
  - intros j p' ext' Hj Hp' Hext'.
    specialize (Hdirs j p' Hj Hp').
    rewrite first_some_None in Hdirs. by apply head_None_nil, Hdirs.
  - intros j ext' Hj Hext'. by apply head_None_nil, (Hexts j).
Qed.

(** X16.  [find_executable] returns [None] exactly when no name matches in
    any directory of PATH under any of the tried extensions. *)
Theorem find_executable_none (glob : string -> list string)
    (environ : gmap string string) (sys_platform : string)
    (names : list string) (exts : option (list string)) :
  find_executable glob environ sys_platform (inr names) exts = None
  <-> forall e p ext,
        e ∈ names -> p ∈ path_dirs environ ->
        ext ∈ tried_exts sys_platform exts ->
        glob (os_path_join p (e +:+ ext)) = [].
Proof.
  unfold find_executable. rewrite first_some_None. split.
  - intros H e p ext He Hp Hext. specialize (H e He).
    rewrite first_some_None in H. specialize (H p Hp).
    rewrite first_some_None in H. by apply head_None_nil, H.
  - intros H e He. apply first_some_None. intros p Hp.
    apply first_some_None. intros ext Hext. apply head_None_nil. by apply H.
Qed.

(** X17.  With PATH unset or empty the only directory searched is the
    empty one, so a name is matched as it stands, relative to the current
    directory, under each tried extension in turn. *)
Theorem find_executable_without_path (glob : string -> list string)
    (environ : gmap string string) (sys_platform e : string)
    (exts : option (list string)) :
  environ !! "PATH" = None \/ environ !! "PATH" = Some EmptyString ->
  path_dirs environ = [EmptyString]
  /\ find_executable glob environ sys_platform (inl e) exts
     = first_some (fun ext => head (glob (e +:+ ext)))
         (tried_exts sys_platform exts).
Proof.
  intros Hpath.
  assert (path_dirs environ = [EmptyString]) as Hdirs.
  { unfold path_dirs, dict_get. by destruct Hpath as [->| ->]. }
  split; [done|]. unfold find_executable. rewrite Hdirs. simpl.
  assert (forall l, first_some
                      (fun ext => head (glob (os_path_join "" (e +:+ ext)))) l
                    = first_some (fun ext => head (glob (e +:+ ext))) l) as ->.
  { induction l as [|x l IH]; simpl; [done|].
    by rewrite os_path_join_empty, IH. }
  by destruct (first_some _ _).
Qed.

Lemma find_executable_priority_witness :
  exists e p ext,
    e ∈ ["pscp"; "scp"] /\ p ∈ ["/usr/bin"; "/opt/bin"]
    /\ head (example_glob (os_path_join p (e +:+ ext))) = Some "/opt/bin/pscp".
Proof.
  destruct (find_executable_priority example_glob example_environ "linux2"
              ["pscp"; "scp"] None "/opt/bin/pscp" eq_refl)
    as (i & e & k & p & n & ext & Hi & Hk & Hn & Hfound & _).
  exists e, p, ext. split; [|split; [|exact Hfound]].
  - exact (list_elem_of_lookup_2 _ _ _ Hi).
  - exact (list_elem_of_lookup_2 _ _ _ Hk).
Defined.

Lemma find_executable_without_path_witness :
  path_dirs ∅ = [EmptyString]
  /\ find_executable example_glob ∅ "linux2" (inl "/usr/bin/scp") None
     = Some "/usr/bin/scp".
Proof.
  destruct (find_executable_without_path example_glob ∅ "linux2"
              "/usr/bin/scp" None (or_introl (lookup_empty "PATH")))
    as [Hdirs Hfind].
  split; [exact Hdirs|]. exact (eq_trans Hfind eq_refl).
Defined.

(* ------------------------------------------------------------------ *)
(** ** [search_up_for_file] *)

Section dirname_facts.
Implicit Types (p s : string) (c : ascii).

Lemma str_upto_shrinks (i : nat) p :
  Py.str_upto i p = p \/ (String.length (Py.str_upto i p) < String.length p)%nat.
Proof.
  unfold Py.str_upto. revert i.
  induction p as [|c p IH]; intros [|i]; simpl; auto; [right; lia|].
  destruct (IH i) as [->|Hlt]; [by left | right; lia].
Qed.

Lemma rstrip_shrinks c s :
  Py.rstrip c s = s \/ (String.length (Py.rstrip c s) < String.length s)%nat.
Proof.
  induction s as [|a s IH]; simpl; [by left|].
  destruct (Py.rstrip c s) as [|b r] eqn:E.
  - destruct (Ascii.eqb a c); simpl; [right; lia|].
    destruct IH as [<-|Hlt]; [by left | right; simpl in *; lia].
  - destruct IH as [<-|Hlt]; [by left | right; simpl in *; lia].
Qed.

(** The parent directory is the directory itself or a shorter string. *)
Lemma dirname_shrinks p :
  os_path_dirname p = p
  \/ (String.length (os_path_dirname p) < String.length p)%nat.
Proof.
  unfold os_path_dirname, Py.os_path_split. cbn [fst].
  set (i := Z.to_nat (Py.rfind "/" p + 1)).
  destruct (str_upto_shrinks i p) as [Heq|Hlt].
  - rewrite Heq. destruct (_ && _); [apply rstrip_shrinks | by left].
  - destruct (_ && _); [|by right].
    destruct (rstrip_shrinks "/" (Py.str_upto i p)) as [->|Hlt'];
      right; lia.
Qed.

End dirname_facts.

Section search_up.
Variable path_exists : string -> bool.
Variable filename : string.
Implicit Types (dir : string) (rounds : nat).

Lemma iter_fixed dir (n : nat) :
  os_path_dirname dir = dir -> Nat.iter n os_path_dirname dir = dir.
Proof. intros H. induction n as [|n IH]; simpl; [done | by rewrite IH]. Qed.

Lemma iter_dirname_succ dir (n : nat) :
  Nat.iter n os_path_dirname (os_path_dirname dir)
  = Nat.iter (S n) os_path_dirname dir.
Proof. induction n as [|n IH]; simpl; [done | by rewrite IH]. Qed.

(** With more rounds than the directory has characters the loop ends. *)
Lemma search_up_loop_ends rounds dir :
  (String.length dir < rounds)%nat ->
  is_Some (search_up_loop path_exists rounds dir filename).
Proof.
  revert dir. induction rounds as [|rounds IH]; intros dir Hlen; [lia|].
  simpl. destruct (path_exists (os_path_join dir filename)); [by eexists|].
  destruct (String.eqb_spec (os_path_dirname dir) dir) as [Heq|Hne];
    [by eexists|].
  apply IH. destruct (dirname_shrinks dir); [done | lia].
Qed.

(** Leaving the loop with a directory: it is the nearest ancestor in which
    the file exists. *)
Lemma search_up_loop_found rounds dir found :
  search_up_loop path_exists rounds dir filename = Some (Some found) ->
  exists n : nat,
    found = Nat.iter n os_path_dirname dir
    /\ path_exists (os_path_join found filename) = true
    /\ forall m : nat,
         (m < n)%nat ->
         path_exists
           (os_path_join (Nat.iter m os_path_dirname dir) filename) = false.
Proof.
  revert dir. induction rounds as [|rounds IH]; intros dir; simpl; [done|].
  destruct (path_exists (os_path_join dir filename)) eqn:Hhere.
  - intros [= <-]. exists 0%nat. repeat split; [done|]. intros; lia.
  - destruct (String.eqb_spec (os_path_dirname dir) dir) as [Heq|Hne];
      [done|].
    intros (n & -> & Hfound & Hbefore)%IH.
    exists (S n). rewrite <- iter_dirname_succ. repeat split; [done|].
    intros [|m] Hm; [done|]. rewrite <- iter_dirname_succ.
    apply Hbefore. lia.
Qed.

(** Leaving the loop with [return None]: the file exists in no ancestor. *)
Lemma search_up_loop_not_found rounds dir :
  search_up_loop path_exists rounds dir filename = Some None ->
  forall m : nat,
    path_exists (os_path_join (Nat.iter m os_path_dirname dir) filename)
    = false.
Proof.
  revert dir. induction rounds as [|rounds IH]; intros dir; simpl; [done|].
  destruct (path_exists (os_path_join dir filename)) eqn:Hhere; [done|].
  destruct (String.eqb_spec (os_path_dirname dir) dir) as [Heq|Hne].
  - intros _ m. by rewrite iter_fixed.
  - intros Hloop [|m]; [done|]. rewrite <- iter_dirname_succ.
    by apply IH.
Qed.

End search_up.

(** X18.  [search_up_for_file] always comes to an end: the walk towards the
    root stops after at most as many steps as the directory has characters,
    whatever exists in the file system. *)
Theorem search_up_terminates (abspath : string -> string)
    (path_exists : string -> bool) (path : string) :
  is_Some (search_up_for_file abspath path_exists path).
Proof.
  unfold search_up_for_file.
  destruct (search_up_loop_ends path_exists
              (os_path_basename (abspath path))
              (S (String.length (os_path_dirname (abspath path))))
              (os_path_dirname (abspath path))) as [[d|] ->];
    try lia; by eexists.
Qed.

(** X19.  What [search_up_for_file] returns: a path is the absolute path of
    the file name in the nearest directory, from the directory of the path
    upwards, in which it exists; [None] means that it exists in none of
    them. *)
Theorem search_up_result (abspath : string -> string)
    (path_exists : string -> bool) (path : string) :
  let filename := os_path_basename (abspath path) in
  let dir := os_path_dirname (abspath path) in
  (forall found,
      search_up_for_file abspath path_exists path = Some (Some found) ->
      exists n : nat,
        found
        = abspath (os_path_join (Nat.iter n os_path_dirname dir) filename)
        /\ path_exists
             (os_path_join (Nat.iter n os_path_dirname dir) filename) = true
        /\ forall m : nat,
             (m < n)%nat ->
             path_exists
               (os_path_join (Nat.iter m os_path_dirname dir) filename)
             = false)
  /\ (search_up_for_file abspath path_exists path = Some None ->
      forall m : nat,
        path_exists (os_path_join (Nat.iter m os_path_dirname dir) filename)
        = false).
Proof.
  intros filename dir. unfold search_up_for_file. fold filename dir.
  destruct (search_up_loop path_exists (S (String.length dir)) dir filename)
    as [[d|]|] eqn:Hloop; split; try done.
  - intros found [= <-].
    apply search_up_loop_found in Hloop as (n & -> & Hfound & Hbefore).
    by exists n.
  - intros _. by apply (search_up_loop_not_found _ _ _ _ Hloop).
Qed.

(* ------------------------------------------------------------------ *)
(** ** [compute_md5] and [Serialized] *)

(** X20.  [compute_md5] on a readable file opens it, reads it to the end,
    closes it and returns the hex digest of the whole content.  On a file
    that cannot be opened it raises [AutobuildError], not the error of
    [open], with a message that names the path.  Either way no file is left
    open. *)
Theorem compute_md5_outcomes {H : Type} (md5 : list byte -> H)
    (hexdigest : H -> string) (str_of_error : exn -> string) (path : string)
    (w : world) :
  compute_md5 md5 hexdigest str_of_error path w
  = match files w !! path with
    | Some data =>
        (Ok (hexdigest (md5 data)),
         after w (opened w)
           [EvOpen path; EvRead path (length data); EvCloseFile path])
    | None =>
        (Raise (AutobuildError
                  ("Can't compute MD5 for " +:+ path +:+ ": "
                   +:+ str_of_error (OSError path))),
         after w (opened w) [EvOpen path])
    end.
Proof.
  unfold compute_md5, builtin_open_rb, file_read_all, file_close,
    Run.try_finally, Run.bind, Run.emit, Run.acquire, Run.release, Run.ret,
    after.
  simpl. destruct (files w !! path) as [data|]; simpl; [|done].
  rewrite decide_True by done. by rewrite <- !app_assoc.
Qed.

(** X21.  Assigning to an attribute whose name is not bound in the class of
    the instance stores the value among the dict items, leaves the other
    items and the instance dict as they were, and reading the attribute
    gives the value back provided the normal lookup does not find the name.
    Assigning to a name that is bound in the class leaves the items alone
    and puts the value in the instance dict.  Whatever the normal lookup
    finds is what a read returns, also for a name that was stored among the
    items; a name found neither by the normal lookup nor among the items
    raises [AttributeError] with the name.  A copy has the same items and
    class. *)
Theorem serialized_attributes {V : Type}
    (normal_lookup : Serialized V -> string -> option V)
    (self : Serialized V) (name : string) (value : V) :
  let self' := Serialized__setattr__ self name value in
  (name ∉ class_names self ->
     dict_items self' !! name = Some value
     /\ (forall other, other <> name ->
           dict_items self' !! other = dict_items self !! other)
     /\ instance_dict self' = instance_dict self
     /\ (normal_lookup self' name = None ->
         attribute_read normal_lookup self' name = Attr value))
  /\ (name ∈ class_names self ->
      dict_items self' = dict_items self
      /\ instance_dict self' !! name = Some value)
  /\ (forall found, normal_lookup self' name = Some found ->
      attribute_read normal_lookup self' name = Attr found)
  /\ (normal_lookup self name = None -> dict_items self !! name = None ->
      attribute_read normal_lookup self name
      = AttributeError ("object has no attribute '" +:+ name +:+ "'"))
  /\ dict_items (Serialized_copy self) = dict_items self
  /\ class_names (Serialized_copy self) = class_names self.
Proof.
  intros self'. unfold attribute_read, Serialized__getattr__.
  split; [|split; [|split; [|split; [|split]]]].
  - intros Hname. subst self'. unfold Serialized__setattr__.
    rewrite decide_False by done. simpl.
    split; [by rewrite lookup_insert_eq|].
    split; [intros other Hother; by rewrite lookup_insert_ne|].
    split; [done|]. intros ->. by rewrite lookup_insert_eq.
  - intros Hname. subst self'. unfold Serialized__setattr__.
    rewrite decide_True by done. simpl.
    split; [done | by rewrite lookup_insert_eq].
  - by intros found ->.
  - by intros -> ->.
  - done.
  - done.
Qed.

(* ------------------------------------------------------------------ *)
(** ** How many dashes a tar name needs *)

(** A split has one piece more than the string has separators. *)
Lemma split_length (sep : ascii) (s : string) :
  length (Py.split sep s)
  = S (count_occ Ascii.ascii_dec (String.list_ascii_of_string s) sep).
Proof.
  induction s as [|c s IH]; [done|]. simpl.
  destruct (split_cons sep s) as (x & xs & E). rewrite E in IH |- *.
  destruct (Ascii.eqb_spec c sep) as [->|Hne].
  - destruct (Ascii.ascii_dec sep sep); [|done]. simpl in *. by rewrite IH.
  - destruct (Ascii.ascii_dec c sep); [done|]. simpl in *. by rewrite <- IH.
Qed.

(** X22.  [split_tarname] succeeds exactly on the paths whose file name,
    without the directory, contains at least three dashes. *)
Theorem split_tarname_needs_three_dashes (pathname : string) :
  (exists parts, split_tarname pathname = Ok parts)
  <-> (3 <= count_occ Ascii.ascii_dec
              (String.list_ascii_of_string (snd (Py.os_path_split pathname)))
              "-"%char)%nat.
Proof.
  rewrite split_tarname_unfold.
  destruct (tarname_tokens_ok pathname)
    as (front & last_part & first & rest & Hdash & _ & ->).
  cbn [and_then].
  pose proof (split_length "-" (snd (Py.os_path_split pathname))) as Hlen.
  rewrite Hdash, length_app in Hlen. cbn [length] in Hlen.
  rewrite recombine_length, length_app. cbn [length].
  destruct (Nat.ltb_spec 4 (length front + 1)) as [Hmany|Hfew].
  - change (4 <? 4)%nat with false. cbv iota. split; [lia | by eexists].
  - destruct (Nat.ltb_spec (length front + 1) 4) as [Hshort|Hfour].
    + split; [by intros [parts [=]] | lia].
    + split; [lia | by eexists].
Qed.
